(** * The [welcome] module of dismob: join/leave announcements

    A shallow embedding of [main.py] (the [Welcome] cog and its
    [WelcomeButton]) together with the properties of the announcement
    lifecycle, the greet button, template rendering and the settings
    command.

    Conventions of the embedding.
    - Discord snowflakes, row ids and durations are Python integers: [Z].
    - Python [str] values are [string]; the two library routines the module
      relies on, [str.format] with keyword arguments and [str.replace], are
      modelled below.
    - The SQLite tables are finite maps keyed by their primary key; every
      column other than a primary key is nullable, hence [option].
    - The cog's dict of dicts [_active_join_messages] is a [gmap] of [gmap]s.
    - Each coroutine is one state transformer: a handler runs from its first
      line to its last before the next handler or timer task is looked at.
      Two handlers wait between a test and the action the test guards:
      [on_member_remove] on [msg.delete()] before [task.cancel()], and
      [WelcomeButton.callback] on [increment_greet_count] before
      [greeters.append]; each of the two is also given in two halves, cut
      at that wait, so that what runs in between can be stated.
      What the network answers to a call (a send that raises, a delete that
      is refused), what the clock reads and what [random.choice] draws are
      arguments of the handlers.  The store answers every statement.
    - A [string] is a sequence of bytes; the braces, the backslash and the
      letters that formatting and replacement look for are ASCII, so what
      they do to the UTF-8 bytes of a text is what Python does to its
      characters. *)

From stdpp Require Import gmap strings list pretty.
From Stdlib Require Import ZArith Lia Ascii.

#[local] Set Warnings "-clear-no-such-hyp".

Local Open Scope string_scope.
Local Open Scope list_scope.
Local Open Scope Z_scope.

(** ** Strings: [str.replace] and [str.format] *)

Module PyStr.

Fixpoint is_prefix (p s : string) : bool :=
  match p with
  | EmptyString => true
  | String a p' =>
      match s with
      | EmptyString => false
      | String b s' => Ascii.eqb a b && is_prefix p' s'
      end
  end.

(** The scan of [s.replace(old, new)] for a non-empty [old]: occurrences
    are taken from the left and do not overlap; [skip] counts the
    characters of the occurrence just replaced that are still ahead. *)
Fixpoint replace_go (old new s : string) (skip : nat) : string :=
  match s with
  | EmptyString => EmptyString
  | String c r =>
      match skip with
      | S k => replace_go old new r k
      | O =>
          if is_prefix old s
          then new +:+ replace_go old new r (Nat.pred (String.length old))
          else String c (replace_go old new r O)
      end
  end.

(** With an empty [old], Python puts [new] before every character and at
    the end. *)
Fixpoint intersperse (new s : string) : string :=
  match s with
  | EmptyString => new
  | String c r => new +:+ String c (intersperse new r)
  end.

Definition replace (old new s : string) : string :=
  match old with
  | EmptyString => intersperse new s
  | _ => replace_go old new s O
  end.

(** The outcome of [message.format] on the keyword arguments [data]: the
    formatted text, an
    exception ([KeyError], [IndexError], [ValueError]), or a replacement
    field that uses a conversion, a format specification, an attribute or
    an index, which this model does not evaluate. *)
Inductive format_result :=
| Formatted (text : string)
| FormatRaises
| FormatOther.

Definition emit (c : ascii) (r : format_result) : format_result :=
  match r with
  | Formatted t => Formatted (String c t)
  | other => other
  end.

Definition emit_string (s : string) (r : format_result) : format_result :=
  match r with
  | Formatted t => Formatted (s +:+ t)
  | other => other
  end.

(** The scanner of [str.format].  Outside a field ([field = None]) a
    doubled brace is one literal brace, a lone closing brace raises, an
    opening brace starts a field.  Inside a field the name runs up to the
    closing brace; an opening brace in the name or the end of the string
    raises; the name is then looked up among the keyword arguments. *)
Fixpoint format_go (data : string → option string) (s : string)
    (field : option string) : format_result :=
  match field with
  | None =>
      match s with
      | EmptyString => Formatted EmptyString
      | String "{" (String "{" r) => emit "{" (format_go data r None)
      | String "{" r => format_go data r (Some EmptyString)
      | String "}" (String "}" r) => emit "}" (format_go data r None)
      | String "}" _ => FormatRaises
      | String c r => emit c (format_go data r None)
      end
  | Some name =>
      match s with
      | EmptyString => FormatRaises
      | String "}" r =>
          match data name with
          | Some v => emit_string v (format_go data r None)
          | None => FormatRaises
          end
      | String "{" _ => FormatRaises
      | String "!" _ | String ":" _ | String "." _ | String "[" _ => FormatOther
      | String c r => format_go data r (Some (name +:+ String c EmptyString))
      end
  end%char.

Definition format (data : string → option string) (s : string) : format_result :=
  format_go data s None.

End PyStr.

(** ** Discord objects *)

Record Guild := {
  guild_id : Z;
  guild_name : string;
  (** the channels [get_channel] finds in the guild's cache *)
  guild_channels : list Z
}.

Record Member := {
  member_id : Z;
  display_name : string;
  mention : string;
  guild : Guild
}.

Definition get_channel (g : Guild) (channel_id : Z) : option Z :=
  if bool_decide (channel_id ∈ guild_channels g) then Some channel_id else None.

(** A sent message, as a handle: its id and the channel it was sent to. *)
Record Message := {
  message_id : Z;
  message_channel : Z
}.

Global Instance Message_eq_dec : EqDecision Message.
Proof. solve_decision. Defined.

(** The one-character string [chr(10)]. *)
Definition newline : string := String (Ascii.ascii_of_nat 10) EmptyString.

(** ** The store: the four tables of [init_db] *)

Record ConfigRow := {
  join_enabled : option Z;
  leave_enabled : option Z;
  join_channel_id : option Z;
  leave_channel_id : option Z;
  join_title : option string;
  leave_title : option string;
  join_duration : option Z;
  leave_duration : option Z
}.

(** A row of [welcome_join_messages] or [welcome_leave_messages]. *)
Record MessageRow := {
  row_id : Z;
  row_guild_id : Z;
  row_message : string
}.

Record Database := {
  welcome_config : gmap Z ConfigRow;
  welcome_join_messages : list MessageRow;
  welcome_leave_messages : list MessageRow;
  (** [(guild_id, greeter_id)] to [count]; the module writes integers
      only, taken to stay within the range of an SQLite INTEGER *)
  welcome_greet_counts : gmap (Z * Z) Z;
  (** the largest id [AUTOINCREMENT] has handed out, per table *)
  join_sequence : Z;
  leave_sequence : Z
}.

(** ** The greet button *)

Record WelcomeButton := {
  label : string;
  button_member : Member;
  greeters : list Z
}.

(** [WelcomeButton.__init__] *)
Definition WelcomeButton_init (member : Member) : WelcomeButton :=
  {| label := "👋 Welcome"; button_member := member; greeters := [] |}.

(** ** The channel side of Discord and the event loop *)

Inductive Color := green | red.

(** What a channel shows for a message: the embed and whether a view is
    attached. *)
Record Posted := {
  posted_channel : Z;
  posted_title : string;
  posted_author : string;
  posted_color : Color;
  posted_view : bool
}.

Record Discord := {
  (** the messages that exist, by id *)
  channel_messages : gmap Z Posted;
  next_message_id : Z;
  (** every [msg.delete()] call that was made, oldest first *)
  delete_log : list Z
}.

Inductive delete_result := Deleted | NotFound | HTTPError.

(** [msg.delete()]: [refused] stands for any failure other than an unknown
    message ([Forbidden], a server error). *)
Definition Message_delete (d : Discord) (msg : Message) (refused : bool)
    : Discord * delete_result :=
  let log := delete_log d ++ [message_id msg] in
  if refused then
    ({| channel_messages := channel_messages d;
        next_message_id := next_message_id d; delete_log := log |}, HTTPError)
  else
    match channel_messages d !! message_id msg with
    | Some _ =>
        ({| channel_messages := delete (message_id msg) (channel_messages d);
            next_message_id := next_message_id d; delete_log := log |}, Deleted)
    | None =>
        ({| channel_messages := channel_messages d;
            next_message_id := next_message_id d; delete_log := log |}, NotFound)
    end.

(** A [delete_later] task: made and not at its end yet (it has still to
    compute its deadline, or waits for it), cancelled before its end, or
    run to its end. *)
Inductive TaskState :=
| Sleeping (msg : Message) (delay : Z)
| Cancelled
| Finished.

Record Loop := {
  tasks : gmap nat TaskState;
  next_task : nat
}.

Definition create_task (l : Loop) (msg : Message) (delay : Z) : Loop * nat :=
  ({| tasks := <[next_task l := Sleeping msg delay]> (tasks l);
      next_task := S (next_task l) |}, next_task l).

(** [task.cancel()]: a task that has finished is not affected. *)
Definition cancel (l : Loop) (task : nat) : Loop :=
  match tasks l !! task with
  | Some (Sleeping _ _) =>
      {| tasks := <[task := Cancelled]> (tasks l); next_task := next_task l |}
  | _ => l
  end.

(** ** The cog *)

(** The cog with what it acts on: its two attributes [db_ready] and
    [_active_join_messages], the store behind [db_path], Discord, and the
    loop of the bot. *)
Record Welcome := {
  db_ready : bool;
  (** [{guild_id: {member_id: (message, delete_task)}}] *)
  _active_join_messages : gmap Z (gmap Z (Message * option nat));
  db : Database;
  discord : Discord;
  loop : Loop
}.

(** The entry of the registry for a guild and a member, if any. *)
Definition pending (w : Welcome) (g m : Z) : option (Message * option nat) :=
  _active_join_messages w !! g ≫= λ guild_msgs, guild_msgs !! m.

(** What a handler lets out: log lines, replies to an interaction, messages
    that reached a channel, the [on_greeting] event.  The text of a caught
    exception, which the source appends to some lines, is left out. *)
Inductive Output :=
| log_warning (text : string)
| log_error (text : string)
| log_client (text : string)
| log_success (text : string)
| log_failure (text : string)
| channel_send (msg : Message) (title : string) (view : option WelcomeButton)
| edit_message (view : WelcomeButton)
| on_greeting (interaction_user : Z) (greeted_member : Member).

(** What the outside answers during one handler. *)
Record Answers := {
  (** the draw of [random.choice] *)
  pick : nat;
  (** [channel.send] raises *)
  send_raises : bool;
  (** [msg.delete()] fails with something other than [NotFound] *)
  delete_refused : bool;
  (** the outcome of [str.format] on a field outside the model: the text,
      or [None] when it raises *)
  format_other : option string
}.

Record Interaction := {
  user : Member;
  interaction_guild : Guild
}.

Definition with_db (w : Welcome) (d : Database) : Welcome :=
  {| db_ready := db_ready w; _active_join_messages := _active_join_messages w;
     db := d; discord := discord w; loop := loop w |}.

Definition with_registry (w : Welcome)
    (r : gmap Z (gmap Z (Message * option nat))) : Welcome :=
  {| db_ready := db_ready w; _active_join_messages := r;
     db := db w; discord := discord w; loop := loop w |}.

Definition with_discord (w : Welcome) (d : Discord) : Welcome :=
  {| db_ready := db_ready w; _active_join_messages := _active_join_messages w;
     db := db w; discord := d; loop := loop w |}.

Definition with_loop (w : Welcome) (l : Loop) : Welcome :=
  {| db_ready := db_ready w; _active_join_messages := _active_join_messages w;
     db := db w; discord := discord w; loop := l |}.

Definition with_config (d : Database) (c : gmap Z ConfigRow) : Database :=
  {| welcome_config := c;
     welcome_join_messages := welcome_join_messages d;
     welcome_leave_messages := welcome_leave_messages d;
     welcome_greet_counts := welcome_greet_counts d;
     join_sequence := join_sequence d; leave_sequence := leave_sequence d |}.

(** *** Greet counters *)

(** [INSERT ... VALUES (?, ?, 1) ON CONFLICT DO UPDATE SET count = count + 1] *)
Definition increment_greet_count (d : Database) (guild_id greeter_id : Z) : Database :=
  let count :=
    match welcome_greet_counts d !! (guild_id, greeter_id) with
    | Some c => c + 1
    | None => 1
    end in
  {| welcome_config := welcome_config d;
     welcome_join_messages := welcome_join_messages d;
     welcome_leave_messages := welcome_leave_messages d;
     welcome_greet_counts := <[(guild_id, greeter_id) := count]> (welcome_greet_counts d);
     join_sequence := join_sequence d; leave_sequence := leave_sequence d |}.

(** [row[0] if row else 0] *)
Definition get_greet_count (d : Database) (guild_id greeter_id : Z) : Z :=
  match welcome_greet_counts d !! (guild_id, greeter_id) with
  | Some c => c
  | None => 0
  end.

(** *** Rendering and sending *)

(** The dict [data] of [send_formatted_message]. *)
Definition data (member : Member) (key : string) : option string :=
  if String.eqb key "member" then Some (display_name member)
  else if String.eqb key "server" then Some (guild_name (guild member))
  else if String.eqb key "mention" then Some (mention member)
  else None.

(** The embed title: [message.format] on [data], then the replacement of
    backslash-n by a newline; [None] when [format] raises. *)
Definition render (message : string) (member : Member) (other : option string)
    : option string :=
  match PyStr.format (data member) message with
  | PyStr.Formatted text => Some (PyStr.replace "\n" newline text)
  | PyStr.FormatRaises => None
  | PyStr.FormatOther => PyStr.replace "\n" newline <$> other
  end.

Definition send_formatted_message (w : Welcome) (channel : Z)
    (title : option string) (message : string) (member : Member)
    (color : Color) (view : option WelcomeButton) (delete_after : option Z)
    (a : Answers) : Welcome * list Output * option Message * option nat :=
  let failed := (w, [log_error "Error sending formatted message: "], None, None) in
  match render message member (format_other a) with
  | None => failed
  | Some text =>
      if send_raises a then failed
      else
        let d := discord w in
        let sent_msg :=
          {| message_id := next_message_id d; message_channel := channel |} in
        let posted :=
          {| posted_channel := channel; posted_title := text;
             posted_author := display_name member; posted_color := color;
             posted_view := bool_decide (is_Some view) |} in
        let w1 := with_discord w
          {| channel_messages := <[message_id sent_msg := posted]> (channel_messages d);
             next_message_id := next_message_id d + 1;
             delete_log := delete_log d |} in
        let out := [channel_send sent_msg text view] in
        match delete_after with
        | Some delay =>
            if 0 <? delay then
              let '(l, task) := create_task (loop w1) sent_msg delay in
              (with_loop w1 l, out, Some sent_msg, Some task)
            else (w1, out, Some sent_msg, None)
        | None => (w1, out, Some sent_msg, None)
        end
  end.

(** The first instant after [datetime.max] (the end of the year 9999), in
    microseconds since [datetime.min]: day 3652059 is the last one. *)
Definition datetime_end : Z := 3652059 * 86400 * 1000000.

(** Line 129, [utcnow() + timedelta(seconds=delay)], with [now] the reading
    of [utcnow()] in microseconds since [datetime.min].  [timedelta] raises
    [OverflowError] for more than 999999999 days, and so does the sum when
    it is not an instant of the years 1 to 9999. *)
Definition deadline_overflows (now delay : Z) : bool :=
  (999999999 <? Z.abs (delay / 86400))
  || (now + delay * 1000000 <? 0)
  || (datetime_end <=? now + delay * 1000000).

(** The body of a task made from [delete_later], from its start to its
    end; a cancelled or finished task does nothing.  The deadline is
    computed inside the [try]: when that raises, the error is logged and
    [msg.delete()] is not reached. *)
Definition delete_later (w : Welcome) (task : nat) (now : Z) (refused : bool)
    : Welcome * list Output :=
  match tasks (loop w) !! task with
  | Some (Sleeping msg delay) =>
      let l := {| tasks := <[task := Finished]> (tasks (loop w));
                  next_task := next_task (loop w) |} in
      if deadline_overflows now delay then
        (with_loop w l, [log_error "Failed to auto-delete message: "])
      else
        let '(d, r) := Message_delete (discord w) msg refused in
        (with_loop (with_discord w d) l,
         match r with
         | Deleted => []
         | _ => [log_error "Failed to auto-delete message: "]
         end)
  | _ => (w, [])
  end.

(** [Welcome.__init__]: the cog over the store found on disk, with an
    empty registry, before [init_db] has run. *)
Definition Welcome_init (d : Database) (dc : Discord) (l : Loop) : Welcome :=
  {| db_ready := false; _active_join_messages := ∅; db := d;
     discord := dc; loop := l |}.

(** [init_db]: the tables exist from then on ([CREATE TABLE IF NOT EXISTS]
    keeps what they hold) and the cog is ready. *)
Definition init_db (w : Welcome) : Welcome :=
  {| db_ready := true; _active_join_messages := _active_join_messages w;
     db := db w; discord := discord w; loop := loop w |}.

Definition db_ready_only (w : Welcome) (body : Welcome * list Output)
    : Welcome * list Output :=
  if db_ready w then body
  else (w, [log_client "Database is not ready yet. Please try again in a few seconds."]).

(** *** Events *)

(** What the first part of a listener ends with: a return without an
    announcement, or the channel, title, messages and duration to use. *)
Inductive Loaded :=
| Stop (out : list Output)
| Ready (channel : Z) (title : option string) (messages : list string) (duration : Z).

Definition truthy (s : option string) : option string :=
  match s with
  | Some t => if String.eqb t "" then None else Some t
  | None => None
  end.

(** A column of the row [fetchone] returned, [None] without a row or for
    a NULL. *)
Definition column {A} (row : option ConfigRow) (f : ConfigRow → option A) : option A :=
  match row with
  | Some r => f r
  | None => None
  end.

Definition messages_of (g : Z) (table : list MessageRow) : list string :=
  row_message <$> filter (λ r, row_guild_id r = g) table.

(** [random.choice(messages)] for a non-empty list, on the draw [pick]. *)
Definition choice (messages : list string) (pick : nat) : string :=
  default "" (messages !! (pick `mod` length messages)%nat).

(** Lines 157 to 198 of [on_member_join]: the row of the guild, the gates
    on [enabled], the channel and the list of messages. *)
Definition load_join (d : Database) (member : Member) : Loaded :=
  let g := guild_id (guild member) in
  let row := welcome_config d !! g in
  let channel :=
    match column row join_channel_id with
    | Some c => get_channel (guild member) c
    | None => None
    end in
  let enabled := default 0 (column row join_enabled) in
  let title := truthy (column row join_title) in
  let duration := default 0 (column row join_duration) in
  if enabled =? 0 then Stop []
  else
    match channel with
    | None =>
        Stop [log_warning ("Join channel not found for guild " +:+ pretty g +:+
                ". Please set it using the `/welcome join set` command.")]
    | Some channel =>
        match messages_of g (welcome_join_messages d) with
        | [] =>
            Stop [log_warning ("No join messages configured for guild " +:+ pretty g +:+
                    ". Please set them using the `/welcome join add-message` command.")]
        | messages => Ready channel title messages duration
        end
    end.

(** Lines 206 to 209: the registration of the sent message. *)
Definition track (w : Welcome) (member : Member) (sent_msg : option Message)
    (delete_task : option nat) (join_duration : Z) : Welcome :=
  match sent_msg with
  | Some msg =>
      if 0 <? join_duration then
        let g := guild_id (guild member) in
        let guild_msgs := default ∅ (_active_join_messages w !! g) in
        with_registry w
          (<[g := <[member_id member := (msg, delete_task)]> guild_msgs]>
             (_active_join_messages w))
      else w
  | None => w
  end.

Definition on_member_join (w : Welcome) (member : Member) (a : Answers)
    : Welcome * list Output :=
  if negb (db_ready w) then (w, [])
  else
    match load_join (db w) member with
    | Stop out => (w, out)
    | Ready channel title messages join_duration =>
        let message := choice messages (pick a) in
        let view := WelcomeButton_init member in
        let '(w1, out, sent_msg, delete_task) :=
          send_formatted_message w channel title message member green
            (Some view) (Some join_duration) a in
        (track w1 member sent_msg delete_task join_duration, out)
    end.

(** Lines 230 to 267 of [on_member_remove]: the same for the leave
    columns. *)
Definition load_leave (d : Database) (member : Member) : Loaded :=
  let g := guild_id (guild member) in
  let row := welcome_config d !! g in
  let channel :=
    match column row leave_channel_id with
    | Some c => get_channel (guild member) c
    | None => None
    end in
  let enabled := default 0 (column row leave_enabled) in
  let title := truthy (column row leave_title) in
  let duration := default 0 (column row leave_duration) in
  if enabled =? 0 then Stop []
  else
    match channel with
    | None =>
        Stop [log_warning ("Leave channel not found for guild " +:+ pretty g +:+
                ". Please set it using the `/welcome leave set` command.")]
    | Some channel =>
        match messages_of g (welcome_leave_messages d) with
        | [] =>
            Stop [log_warning ("No leave messages configured for guild " +:+ pretty g +:+
                    ". Please set them using the `/welcome leave add-message` command.")]
        | messages => Ready channel title messages duration
        end
    end.

(** Lines 216 to 227: the early deletion of a join message still in the
    registry.  [task.cancel()] comes after [msg.delete()] in the same
    [try]: a delete that raises anything but [NotFound] skips it. *)
Definition delete_join_message (w : Welcome) (member : Member) (a : Answers)
    : Welcome * list Output :=
  let g := guild_id (guild member) in
  match _active_join_messages w !! g with
  | Some guild_msgs =>
      match guild_msgs !! member_id member with
      | Some (msg, task) =>
          let w1 := with_registry w
            (<[g := delete (member_id member) guild_msgs]> (_active_join_messages w)) in
          let '(d, r) := Message_delete (discord w1) msg (delete_refused a) in
          let w2 := with_discord w1 d in
          match r with
          | HTTPError =>
              (w2, [log_error "Failed to delete join message for leaving member: "])
          | _ =>
              (match task with
               | Some t => with_loop w2 (cancel (loop w2) t)
               | None => w2
               end, [])
          end
      | None => (w, [])
      end
  | None => (w, [])
  end.

(** Lines 229 to 272: the leave announcement. *)
Definition leave_announcement (w : Welcome) (member : Member) (a : Answers)
    : Welcome * list Output :=
  match load_leave (db w) member with
  | Stop out => (w, out)
  | Ready channel title messages leave_duration =>
      let message := choice messages (pick a) in
      let '(w1, out, _, _) :=
        send_formatted_message w channel title message member red
          None (Some leave_duration) a in
      (w1, out)
  end.

Definition on_member_remove (w : Welcome) (member : Member) (a : Answers)
    : Welcome * list Output :=
  if negb (db_ready w) then (w, [])
  else
    let '(w1, out1) := delete_join_message w member a in
    let '(w2, out2) := leave_announcement w1 member a in
    (w2, out1 ++ out2).

(** [on_member_remove] in two halves, cut where it waits on
    [msg.delete()] (line 221).  Where the first half stops: at the
    [return] of line 214, at line 229 when there is no entry to delete, or
    at the delete call, with the answer the call will give and the task of
    the entry. *)
Inductive Waiting :=
| handler_over
| nothing_pending
| delete_called (r : delete_result) (task : option nat).

(** Lines 213 to 221: the entry is popped and the delete call is made. *)
Definition on_member_remove_begin (w : Welcome) (member : Member) (a : Answers)
    : Welcome * Waiting :=
  if negb (db_ready w) then (w, handler_over)
  else
    let g := guild_id (guild member) in
    match _active_join_messages w !! g with
    | Some guild_msgs =>
        match guild_msgs !! member_id member with
        | Some (msg, task) =>
            let w1 := with_registry w
              (<[g := delete (member_id member) guild_msgs]> (_active_join_messages w)) in
            let '(d, r) := Message_delete (discord w1) msg (delete_refused a) in
            (with_discord w1 d, delete_called r task)
        | None => (w, nothing_pending)
        end
    | None => (w, nothing_pending)
    end.

(** Lines 222 to 272, run when the call has answered: [task.cancel()]
    unless the call raised something other than [NotFound], then the leave
    announcement. *)
Definition on_member_remove_resume (w : Welcome) (stop : Waiting)
    (member : Member) (a : Answers) : Welcome * list Output :=
  match stop with
  | handler_over => (w, [])
  | nothing_pending => leave_announcement w member a
  | delete_called r task =>
      let '(w1, out1) :=
        match r with
        | HTTPError =>
            (w, [log_error "Failed to delete join message for leaving member: "])
        | _ =>
            (match task with
             | Some t => with_loop w (cancel (loop w) t)
             | None => w
             end, [])
        end in
      let '(w2, out2) := leave_announcement w1 member a in
      (w2, out1 ++ out2)
  end.

(** *** Commands *)

(** [target = member or interaction.user] *)
Definition target_of (ctx : Interaction) (member : option Member) : Member :=
  default (user ctx) member.

Definition greet_count (w : Welcome) (interaction : Interaction)
    (member : option Member) : Welcome * list Output :=
  db_ready_only w
    (let target := target_of interaction member in
     let member_str :=
       if member_id (user interaction) =? member_id target then "You have"
       else mention target +:+ " has" in
     let count :=
       get_greet_count (db w) (guild_id (interaction_guild interaction))
         (member_id target) in
     if count <=? 0 then
       (w, [log_client (member_str +:+ " not welcomed anyone in this server.")])
     else
       (w, [log_client (member_str +:+ " welcomed " +:+ pretty count +:+ " member" +:+
                        (if 1 <? count then "s" else "") +:+ " in this server.")])).

(** [str()] of a nullable column inside an f-string. *)
Definition str_Z (v : option Z) : string :=
  match v with Some z => pretty z | None => "None" end.

Definition str_text (v : option string) : string :=
  match v with Some t => t | None => "None" end.

(** The row [INSERT INTO welcome_config (guild_id, ...)] creates: the
    columns it does not list take the defaults of [init_db]. *)
Definition default_row : ConfigRow :=
  {| join_enabled := Some 1; leave_enabled := Some 1;
     join_channel_id := None; leave_channel_id := None;
     join_title := Some "Welcome"; leave_title := Some "Goodbye";
     join_duration := Some 0; leave_duration := Some 0 |}.

Definition set_join_columns (r : ConfigRow) (channel_id : option Z)
    (title : option string) (enable duration : option Z) : ConfigRow :=
  {| join_enabled := enable; leave_enabled := leave_enabled r;
     join_channel_id := channel_id; leave_channel_id := leave_channel_id r;
     join_title := title; leave_title := leave_title r;
     join_duration := duration; leave_duration := leave_duration r |}.

Definition set_leave_columns (r : ConfigRow) (channel_id : option Z)
    (title : option string) (enable duration : option Z) : ConfigRow :=
  {| join_enabled := join_enabled r; leave_enabled := enable;
     join_channel_id := join_channel_id r; leave_channel_id := channel_id;
     join_title := join_title r; leave_title := title;
     join_duration := join_duration r; leave_duration := duration |}.

(** A Python [bool] bound to a column is stored as 1 or 0. *)
Definition stored (b : bool) : Z := if b then 1 else 0.

(** [x if x is not None else old] *)
Definition or_old {A} (x old : option A) : option A :=
  match x with Some v => Some v | None => old end.

Definition set_join_config (w : Welcome) (ctx : Interaction)
    (channel : option Z) (title : option string) (enable : option bool)
    (duration : option Z) : Welcome * list Output :=
  db_ready_only w
    (let g := guild_id (interaction_guild ctx) in
     let row := welcome_config (db w) !! g in
     match channel, title, enable, duration with
     | None, None, None, None =>
         match row with
         | Some r =>
             let channel_mention :=
               match join_channel_id r with
               | Some c => if c =? 0 then "None" else "<#" +:+ pretty c +:+ ">"
               | None => "None"
               end in
             (w, [log_client ("Current join config: Channel: " +:+ channel_mention +:+
                    ", Title: " +:+ str_text (join_title r) +:+
                    ", Enabled: " +:+ str_Z (join_enabled r) +:+
                    ", Duration: " +:+ str_Z (join_duration r) +:+ "s")])
         | None => (w, [log_client "No join config found for this server."])
         end
     | _, _, _, _ =>
         let old_channel_id := match row with Some r => join_channel_id r | None => None end in
         let old_title := match row with Some r => join_title r | None => Some "Welcome" end in
         let old_enabled := match row with Some r => join_enabled r | None => Some 1 end in
         let old_duration := match row with Some r => join_duration r | None => Some 0 end in
         let channel_id := or_old channel old_channel_id in
         let new_title := or_old title old_title in
         let new_enable := or_old (stored <$> enable) old_enabled in
         let new_duration := or_old duration old_duration in
         let r' := set_join_columns (default default_row row)
                     channel_id new_title new_enable new_duration in
         (with_db w (with_config (db w) (<[g := r']> (welcome_config (db w)))),
          [log_success "Join message config updated."])
     end).

Definition set_leave_config (w : Welcome) (ctx : Interaction)
    (channel : option Z) (title : option string) (enable : option bool)
    (duration : option Z) : Welcome * list Output :=
  db_ready_only w
    (let g := guild_id (interaction_guild ctx) in
     let row := welcome_config (db w) !! g in
     match channel, title, enable, duration with
     | None, None, None, None =>
         match row with
         | Some r =>
             let channel_mention :=
               match leave_channel_id r with
               | Some c => if c =? 0 then "None" else "<#" +:+ pretty c +:+ ">"
               | None => "None"
               end in
             (w, [log_client ("Current leave config: Channel: " +:+ channel_mention +:+
                    ", Title: " +:+ str_text (leave_title r) +:+
                    ", Enabled: " +:+ str_Z (leave_enabled r) +:+
                    ", Duration: " +:+ str_Z (leave_duration r) +:+ "s")])
         | None => (w, [log_client "No leave config found for this server."])
         end
     | _, _, _, _ =>
         let old_channel_id := match row with Some r => leave_channel_id r | None => None end in
         let old_title := match row with Some r => leave_title r | None => Some "Goodbye" end in
         let old_enabled := match row with Some r => leave_enabled r | None => Some 1 end in
         let old_duration := match row with Some r => leave_duration r | None => Some 0 end in
         let channel_id := or_old channel old_channel_id in
         let new_title := or_old title old_title in
         let new_enable := or_old (stored <$> enable) old_enabled in
         let new_duration := or_old duration old_duration in
         let r' := set_leave_columns (default default_row row)
                     channel_id new_title new_enable new_duration in
         (with_db w (with_config (db w) (<[g := r']> (welcome_config (db w)))),
          [log_success "Leave message config updated."])
     end).

Definition add_join_message (w : Welcome) (ctx : Interaction) (message : string)
    : Welcome * list Output :=
  db_ready_only w
    (let d := db w in
     let row := {| row_id := join_sequence d + 1;
                   row_guild_id := guild_id (interaction_guild ctx);
                   row_message := message |} in
     (with_db w
        {| welcome_config := welcome_config d;
           welcome_join_messages := welcome_join_messages d ++ [row];
           welcome_leave_messages := welcome_leave_messages d;
           welcome_greet_counts := welcome_greet_counts d;
           join_sequence := join_sequence d + 1;
           leave_sequence := leave_sequence d |},
      [log_success ("Join message added: " +:+ message)])).

Definition add_leave_message (w : Welcome) (ctx : Interaction) (message : string)
    : Welcome * list Output :=
  db_ready_only w
    (let d := db w in
     let row := {| row_id := leave_sequence d + 1;
                   row_guild_id := guild_id (interaction_guild ctx);
                   row_message := message |} in
     (with_db w
        {| welcome_config := welcome_config d;
           welcome_join_messages := welcome_join_messages d;
           welcome_leave_messages := welcome_leave_messages d ++ [row];
           welcome_greet_counts := welcome_greet_counts d;
           join_sequence := join_sequence d;
           leave_sequence := leave_sequence d + 1 |},
      [log_success ("Leave message added: " +:+ message)])).

(** [WHERE id = ? AND guild_id = ?] *)
Definition owned (message_id g : Z) (r : MessageRow) : bool :=
  (row_id r =? message_id) && (row_guild_id r =? g).

Definition remove_join_message (w : Welcome) (ctx : Interaction) (message_id : Z)
    : Welcome * list Output :=
  db_ready_only w
    (let d := db w in
     let g := guild_id (interaction_guild ctx) in
     if existsb (owned message_id g) (welcome_join_messages d) then
       (with_db w
          {| welcome_config := welcome_config d;
             welcome_join_messages :=
               List.filter (λ r, negb (owned message_id g r)) (welcome_join_messages d);
             welcome_leave_messages := welcome_leave_messages d;
             welcome_greet_counts := welcome_greet_counts d;
             join_sequence := join_sequence d;
             leave_sequence := leave_sequence d |},
        [log_success ("Join message with ID " +:+ pretty message_id +:+ " removed.")])
     else
       (w, [log_failure ("No join message found with ID " +:+ pretty message_id +:+ ".")])).

Definition remove_leave_message (w : Welcome) (ctx : Interaction) (message_id : Z)
    : Welcome * list Output :=
  db_ready_only w
    (let d := db w in
     let g := guild_id (interaction_guild ctx) in
     if existsb (owned message_id g) (welcome_leave_messages d) then
       (with_db w
          {| welcome_config := welcome_config d;
             welcome_join_messages := welcome_join_messages d;
             welcome_leave_messages :=
               List.filter (λ r, negb (owned message_id g r)) (welcome_leave_messages d);
             welcome_greet_counts := welcome_greet_counts d;
             join_sequence := join_sequence d;
             leave_sequence := leave_sequence d |},
        [log_success ("Leave message with ID " +:+ pretty message_id +:+ " removed.")])
     else
       (w, [log_failure ("No leave message found with ID " +:+ pretty message_id +:+ ".")])).

Definition test_join_message (w : Welcome) (ctx : Interaction)
    (member : option Member) (a : Answers) : Welcome * list Output :=
  db_ready_only w
    (let target_member := target_of ctx member in
     let '(w1, out) := on_member_join w target_member a in
     (w1, out ++ [log_client ("Testing join message for member " +:+
                              mention target_member +:+ ".")])).

Definition test_leave_message (w : Welcome) (ctx : Interaction)
    (member : option Member) (a : Answers) : Welcome * list Output :=
  db_ready_only w
    (let target_member := target_of ctx member in
     let '(w1, out) := on_member_remove w target_member a in
     (w1, out ++ [log_client ("Testing leave message for member " +:+
                              mention target_member +:+ ".")])).

(** *** [WelcomeButton.callback] *)

Definition callback (w : Welcome) (self : WelcomeButton) (interaction : Interaction)
    : Welcome * WelcomeButton * list Output :=
  let uid := member_id (user interaction) in
  if uid =? member_id (button_member self) then
    (w, self, [log_client "You cannot welcome yourself!"])
  else if bool_decide (uid ∈ greeters self) then
    (w, self, [log_client "You have already welcomed this member!"])
  else
    let d := increment_greet_count (db w) (guild_id (interaction_guild interaction)) uid in
    let greeters' := greeters self ++ [uid] in
    let self' :=
      {| label := "👋 Welcomed (" +:+ pretty (length greeters') +:+ ")";
         button_member := button_member self;
         greeters := greeters' |} in
    (with_db w d, self', [edit_message self'; on_greeting uid (button_member self)]).

(** [callback] in two halves, cut where it waits on
    [increment_greet_count] (line 519).  The first half runs lines 510 to
    519: the two tests on the presser, then the statement that adds 1 to
    the counter; it tells whether the handler got to the statement. *)
Definition callback_begin (w : Welcome) (self : WelcomeButton) (interaction : Interaction)
    : Welcome * list Output * bool :=
  let uid := member_id (user interaction) in
  if uid =? member_id (button_member self) then
    (w, [log_client "You cannot welcome yourself!"], false)
  else if bool_decide (uid ∈ greeters self) then
    (w, [log_client "You have already welcomed this member!"], false)
  else
    (with_db w (increment_greet_count (db w) (guild_id (interaction_guild interaction)) uid),
     [], true).

(** The second half, lines 521 to 529, on the button as it is when the
    statement has answered: the append, the label, the edit of the message
    and the event. *)
Definition callback_resume (self : WelcomeButton) (interaction : Interaction)
    : WelcomeButton * list Output :=
  let uid := member_id (user interaction) in
  let greeters' := greeters self ++ [uid] in
  let self' :=
    {| label := "👋 Welcomed (" +:+ pretty (length greeters') +:+ ")";
       button_member := button_member self;
       greeters := greeters' |} in
  (self', [edit_message self'; on_greeting uid (button_member self)]).

(** Two presses on one button, the second one arriving while the first
    waits at line 519: both first halves see the button as it was, then
    the second halves run in turn. *)
Definition overlapping_presses (w : Welcome) (self : WelcomeButton)
    (first second : Interaction) : Welcome * WelcomeButton * list Output :=
  let '(w1, out1, go1) := callback_begin w self first in
  let '(w2, out2, go2) := callback_begin w1 self second in
  let '(self1, out3) := if go1 then callback_resume self first else (self, []) in
  let '(self2, out4) := if go2 then callback_resume self1 second else (self1, []) in
  (w2, self2, out1 ++ out2 ++ out3 ++ out4).

(** ["\n".join(...)] of the lines [f"{id}: {message}"] *)
Fixpoint message_list (rows : list MessageRow) : string :=
  match rows with
  | [] => ""
  | [r] => pretty (row_id r) +:+ ": " +:+ row_message r
  | r :: rest => pretty (row_id r) +:+ ": " +:+ row_message r +:+ newline +:+ message_list rest
  end.

Definition list_join_messages (w : Welcome) (ctx : Interaction) : Welcome * list Output :=
  db_ready_only w
    (let g := guild_id (interaction_guild ctx) in
     match filter (λ r, row_guild_id r = g) (welcome_join_messages (db w)) with
     | [] => (w, [log_client "No join messages configured for this server."])
     | messages => (w, [log_client ("Join messages:" +:+ newline +:+ message_list messages)])
     end).

Definition list_leave_messages (w : Welcome) (ctx : Interaction) : Welcome * list Output :=
  db_ready_only w
    (let g := guild_id (interaction_guild ctx) in
     match filter (λ r, row_guild_id r = g) (welcome_leave_messages (db w)) with
     | [] => (w, [log_client "No leave messages configured for this server."])
     | messages => (w, [log_client ("Leave messages:" +:+ newline +:+ message_list messages)])
     end).

(** ** A small server to run the handlers on *)

Module Scenario.

Definition server : Guild :=
  {| guild_id := 1; guild_name := "Mob"; guild_channels := [10; 11] |}.

Definition alice : Member :=
  {| member_id := 2; display_name := "Alice"; mention := "<@2>"; guild := server |}.

Definition bob : Member :=
  {| member_id := 3; display_name := "Bob"; mention := "<@3>"; guild := server |}.

(** a display name that holds a backslash followed by [n] *)
Definition nina : Member :=
  {| member_id := 4; display_name := "a\nb"; mention := "<@4>"; guild := server |}.

Definition admin : Interaction := {| user := bob; interaction_guild := server |}.

(** every call succeeds, [random.choice] draws the first message *)
Definition fine : Answers :=
  {| pick := 0; send_raises := false; delete_refused := false; format_other := None |}.

Definition refused : Answers :=
  {| pick := 0; send_raises := false; delete_refused := true; format_other := None |}.

(** the cog once [init_db] has run on an empty store *)
Definition started : Welcome :=
  init_db
    (Welcome_init
       {| welcome_config := ∅; welcome_join_messages := [];
          welcome_leave_messages := []; welcome_greet_counts := ∅;
          join_sequence := 0; leave_sequence := 0 |}
       {| channel_messages := ∅; next_message_id := 100; delete_log := [] |}
       {| tasks := ∅; next_task := 0 |}).

(** join and leave announcements in channel 10, join messages deleted
    after 30 seconds *)
Definition configured : Welcome :=
  let w1 := (set_join_config started admin (Some 10) None None (Some 30)).1 in
  let w2 := (set_leave_config w1 admin (Some 10) None None None).1 in
  let w3 := (add_join_message w2 admin "Hi {member}!").1 in
  (add_leave_message w3 admin "Bye {member}").1.

Definition joined : Welcome := (on_member_join configured alice fine).1.

(** [utcnow()] read at the start of the year 2026, in microseconds since
    [datetime.min] *)
Definition today : Z := 63902822400000000.

(** the join duration set to a million million seconds, then alice joins *)
Definition joined_for_ages : Welcome :=
  let w1 := (set_join_config configured admin None None None (Some 1000000000000)).1 in
  (on_member_join w1 alice fine).1.

(** the cog after a restart, before [init_db] has finished: the store on
    disk is the configured one, the registry is empty *)
Definition restarting : Welcome :=
  Welcome_init (db configured) (discord configured) {| tasks := ∅; next_task := 0 |}.

End Scenario.

(** ** Notions used in the statements *)

(** A template written with the three fields and literal characters, a
    literal brace being written doubled as [str.format] asks. *)
Inductive Segment :=
| lit (c : ascii)
| member_field
| server_field
| mention_field.

Definition written (sg : Segment) : string :=
  match sg with
  | lit "{"%char => "{{"
  | lit "}"%char => "}}"
  | lit c => String c ""
  | member_field => "{member}"
  | server_field => "{server}"
  | mention_field => "{mention}"
  end.

Fixpoint template_of (segs : list Segment) : string :=
  match segs with
  | [] => ""
  | sg :: rest => written sg +:+ template_of rest
  end.

Definition shown (member : Member) (sg : Segment) : string :=
  match sg with
  | lit c => String c ""
  | member_field => display_name member
  | server_field => guild_name (guild member)
  | mention_field => mention member
  end.

Fixpoint expand (member : Member) (segs : list Segment) : string :=
  match segs with
  | [] => ""
  | sg :: rest => shown member sg +:+ expand member rest
  end.

(** A text with every backslash followed by [n] turned into a newline,
    read from the left. *)
Fixpoint unescape (s : string) : string :=
  match s with
  | EmptyString => EmptyString
  | String c r =>
      match r with
      | EmptyString => String c EmptyString
      | String d r' =>
          if Ascii.eqb c "\" && Ascii.eqb d "n"
          then newline +:+ unescape r'
          else String c (unescape r)
      end
  end.

(** The rendering as the specification words it: the escaped newlines of
    the stored template become newlines, and each placeholder becomes the
    attribute of the member it names. *)
Definition spec_render (template : string) (member : Member) : string :=
  PyStr.replace "{mention}" (mention member)
    (PyStr.replace "{server}" (guild_name (guild member))
       (PyStr.replace "{member}" (display_name member)
          (PyStr.replace "\n" newline template))).

(** The two forms the label of a greet button takes, by the number of
    greeters. *)
Definition label_for (n : nat) : string :=
  match n with
  | O => "👋 Welcome"
  | S _ => "👋 Welcomed (" +:+ pretty n +:+ ")"
  end.


(** Presses handled one after the other, each callback running to its end
    before the next one starts; for two presses that overlap see
    [overlapping_presses]. *)
Fixpoint press_all (w : Welcome) (self : WelcomeButton) (presses : list Interaction)
    : Welcome * WelcomeButton :=
  match presses with
  | [] => (w, self)
  | interaction :: rest =>
      let '(w1, self1, _) := callback w self interaction in
      press_all w1 self1 rest
  end.

(** The ids that [press_all] adds to the greeters: those of the pressers
    that are neither the greeted member nor greeters already. *)
Definition newcomer (self : WelcomeButton) (presses : list Interaction) (u : Z) : Prop :=
  u ≠ member_id (button_member self)
  ∧ (u ∉ greeters self)
  ∧ u ∈ ((λ i, member_id (user i)) <$> presses).

Global Instance newcomer_dec self presses u : Decision (newcomer self presses u).
Proof. unfold newcomer. apply _. Defined.

(** The message of the first [channel_send] among the outputs of a
    handler: the announcement that reached the channel, if one did. *)
Fixpoint sent_in (out : list Output) : option Message :=
  match out with
  | [] => None
  | channel_send msg _ _ :: _ => Some msg
  | _ :: rest => sent_in rest
  end.

(** The join duration the listener reads: 0 without a row or for a NULL. *)
Definition configured_join_duration (d : Database) (g : Z) : Z :=
  default 0 (column (welcome_config d !! g) join_duration).

(** The operations of the module: the listeners, the timer task, the
    commands and the button. *)
Inductive Operation :=
| op_init_db
| op_member_join (member : Member) (a : Answers)
| op_member_remove (member : Member) (a : Answers)
| op_delete_later (task : nat) (now : Z) (refused : bool)
| op_greet_count (ctx : Interaction) (member : option Member)
| op_set_join_config (ctx : Interaction) (channel : option Z) (title : option string)
    (enable : option bool) (duration : option Z)
| op_set_leave_config (ctx : Interaction) (channel : option Z) (title : option string)
    (enable : option bool) (duration : option Z)
| op_add_join_message (ctx : Interaction) (message : string)
| op_add_leave_message (ctx : Interaction) (message : string)
| op_remove_join_message (ctx : Interaction) (message_id : Z)
| op_remove_leave_message (ctx : Interaction) (message_id : Z)
| op_list_join_messages (ctx : Interaction)
| op_list_leave_messages (ctx : Interaction)
| op_test_join_message (ctx : Interaction) (member : option Member) (a : Answers)
| op_test_leave_message (ctx : Interaction) (member : option Member) (a : Answers)
| op_callback (self : WelcomeButton) (interaction : Interaction).

Definition run (w : Welcome) (op : Operation) : Welcome :=
  match op with
  | op_init_db => init_db w
  | op_member_join member a => (on_member_join w member a).1
  | op_member_remove member a => (on_member_remove w member a).1
  | op_delete_later task now refused => (delete_later w task now refused).1
  | op_greet_count ctx member => (greet_count w ctx member).1
  | op_set_join_config ctx channel title enable duration =>
      (set_join_config w ctx channel title enable duration).1
  | op_set_leave_config ctx channel title enable duration =>
      (set_leave_config w ctx channel title enable duration).1
  | op_add_join_message ctx message => (add_join_message w ctx message).1
  | op_add_leave_message ctx message => (add_leave_message w ctx message).1
  | op_remove_join_message ctx message_id => (remove_join_message w ctx message_id).1
  | op_remove_leave_message ctx message_id => (remove_leave_message w ctx message_id).1
  | op_list_join_messages ctx => (list_join_messages w ctx).1
  | op_list_leave_messages ctx => (list_leave_messages w ctx).1
  | op_test_join_message ctx member a => (test_join_message w ctx member a).1
  | op_test_leave_message ctx member a => (test_leave_message w ctx member a).1
  | op_callback self interaction => (callback w self interaction).1.1
  end.

(** The states of the cog: the one [__init__] makes, and what the
    operations turn a state into. *)
Inductive reachable : Welcome → Prop :=
| reachable_init d dc l : reachable (Welcome_init d dc l)
| reachable_run w op : reachable w → reachable (run w op).

(** Every entry of the registry was made with the store ready and holds
    the handle of a task the loop has made. *)
Definition entries_ok (w : Welcome) : Prop :=
  ∀ g m msg task,
    pending w g m = Some (msg, task) →
    db_ready w = true ∧ ∃ t, task = Some t ∧ (t < next_task (loop w))%nat.

(** An operation with what it lets out; the button of [op_callback] is
    dropped. *)
Definition perform (w : Welcome) (op : Operation) : Welcome * list Output :=
  match op with
  | op_init_db => (init_db w, [])
  | op_member_join member a => on_member_join w member a
  | op_member_remove member a => on_member_remove w member a
  | op_delete_later task now refused => delete_later w task now refused
  | op_greet_count ctx member => greet_count w ctx member
  | op_set_join_config ctx channel title enable duration =>
      set_join_config w ctx channel title enable duration
  | op_set_leave_config ctx channel title enable duration =>
      set_leave_config w ctx channel title enable duration
  | op_add_join_message ctx message => add_join_message w ctx message
  | op_add_leave_message ctx message => add_leave_message w ctx message
  | op_remove_join_message ctx message_id => remove_join_message w ctx message_id
  | op_remove_leave_message ctx message_id => remove_leave_message w ctx message_id
  | op_list_join_messages ctx => list_join_messages w ctx
  | op_list_leave_messages ctx => list_leave_messages w ctx
  | op_test_join_message ctx member a => test_join_message w ctx member a
  | op_test_leave_message ctx member a => test_leave_message w ctx member a
  | op_callback self interaction =>
      ((callback w self interaction).1.1, (callback w self interaction).2)
  end.

(** The slash commands, all under [db_ready_only]. *)
Definition is_command (op : Operation) : bool :=
  match op with
  | op_init_db | op_member_join _ _ | op_member_remove _ _
  | op_delete_later _ _ _ | op_callback _ _ => false
  | _ => true
  end.

(** The guild whose rows an operation may write: that of the interaction
    for the settings, add and remove commands. *)
Definition op_guild (op : Operation) : option Z :=
  match op with
  | op_set_join_config ctx _ _ _ _ | op_set_leave_config ctx _ _ _ _
  | op_add_join_message ctx _ | op_add_leave_message ctx _
  | op_remove_join_message ctx _ | op_remove_leave_message ctx _ =>
      Some (guild_id (interaction_guild ctx))
  | _ => None
  end.

(** The ids of a message table are pairwise different and none is above
    what [AUTOINCREMENT] has handed out. *)
Definition table_ok (table : list MessageRow) (sequence : Z) : Prop :=
  NoDup (row_id <$> table) ∧ Forall (λ r, row_id r ≤ sequence) table.

Definition ids_ok (d : Database) : Prop :=
  table_ok (welcome_join_messages d) (join_sequence d)
  ∧ table_ok (welcome_leave_messages d) (leave_sequence d).

(** A text without braces. *)
Fixpoint brace_free (s : string) : bool :=
  match s with
  | EmptyString => true
  | String c r =>
      negb (Ascii.eqb c "{") && negb (Ascii.eqb c "}") && brace_free r
  end.

(** A field name [str.format] looks up as it stands: none of the
    characters that end a name or start a conversion, a specification, an
    attribute or an index. *)
Fixpoint plain_name (s : string) : bool :=
  match s with
  | EmptyString => true
  | String c r =>
      negb (Ascii.eqb c "{") && negb (Ascii.eqb c "}")
      && negb (Ascii.eqb c "!") && negb (Ascii.eqb c ":")
      && negb (Ascii.eqb c ".") && negb (Ascii.eqb c "[")
      && plain_name r
  end.

(** A text holds a backslash followed by [n]. *)
Fixpoint has_escape (s : string) : bool :=
  match s with
  | EmptyString => false
  | String c r =>
      match r with
      | EmptyString => false
      | String d _ => (Ascii.eqb c "\" && Ascii.eqb d "n") || has_escape r
      end
  end.

(** * Properties *)

(** ** Rendering *)

Example replace_backslash_n :
  PyStr.replace "\n" newline "a\nb\\n" = "a" +:+ newline +:+ "b\" +:+ newline.
Proof. reflexivity. Qed.

Example replace_no_overlap : PyStr.replace "aa" "b" "aaaaa" = "bba".
Proof. reflexivity. Qed.

Example format_fields :
  PyStr.format (data Scenario.alice) "{mention}, welcome to {server} {{{member}}}"
  = PyStr.Formatted "<@2>, welcome to Mob {Alice}".
Proof. reflexivity. Qed.

Example format_unknown_field :
  PyStr.format (data Scenario.alice) "Hi {name}" = PyStr.FormatRaises.
Proof. reflexivity. Qed.

Example format_lone_brace :
  PyStr.format (data Scenario.alice) "Hi } {member}" = PyStr.FormatRaises.
Proof. reflexivity. Qed.

Section Rendering.

Variable member : Member.

Lemma format_go_emit (s : string) (c : ascii) :
  c ≠ "{"%char → c ≠ "}"%char →
  PyStr.format_go (data member) (String c s) None
  = PyStr.emit c (PyStr.format_go (data member) s None).
Proof.
  intros Ho Hc.
  destruct c as [[] [] [] [] [] [] [] []]; try reflexivity; congruence.
Qed.

Lemma format_go_written (sg : Segment) (s : string) :
  PyStr.format_go (data member) (written sg +:+ s) None
  = PyStr.emit_string (shown member sg) (PyStr.format_go (data member) s None).
Proof.
  destruct sg as [c| | |]; try reflexivity.
  destruct (decide (c = "{"%char)) as [->|Ho].
  { change (written (lit "{") +:+ s) with (String "{" (String "{" s)).
    cbn. by destruct (PyStr.format_go (data member) s None). }
  destruct (decide (c = "}"%char)) as [->|Hc].
  { change (written (lit "}") +:+ s) with (String "}" (String "}" s)).
    cbn. by destruct (PyStr.format_go (data member) s None). }
  assert (written (lit c) = String c "") as ->.
  { destruct c as [[] [] [] [] [] [] [] []]; try reflexivity; congruence. }
  change (String c "" +:+ s) with (String c s).
  rewrite format_go_emit by done.
  by destruct (PyStr.format_go (data member) s None).
Qed.

Lemma format_template_of (segs : list Segment) :
  PyStr.format (data member) (template_of segs)
  = PyStr.Formatted (expand member segs).
Proof.
  unfold PyStr.format.
  induction segs as [|sg segs IH]; [reflexivity|].
  cbn [template_of expand]. rewrite format_go_written, IH. reflexivity.
Qed.

End Rendering.

(** [str.replace] with backslash-n for [old] is [unescape]. *)
Lemma replace_unescape (s : string) : PyStr.replace "\n" newline s = unescape s.
Proof.
  change (PyStr.replace_go "\n" newline s 0 = unescape s).
  enough (PyStr.replace_go "\n" newline s 0 = unescape s
          ∧ ∀ c, PyStr.replace_go "\n" newline (String c s) 0 = unescape (String c s))
    as [H _] by exact H.
  induction s as [|d s [IH1 IH2]].
  - split; [reflexivity|]. intros c.
    cbn [PyStr.replace_go PyStr.is_prefix unescape].
    by rewrite andb_false_r.
  - split; [apply IH2|]. intros c.
    cbn [PyStr.replace_go PyStr.is_prefix unescape String.length Nat.pred].
    rewrite (Ascii.eqb_sym c), (Ascii.eqb_sym d), andb_true_r.
    destruct (Ascii.eqb "\" c && Ascii.eqb "n" d).
    + by rewrite IH1.
    + f_equal. exact (IH2 d).
Qed.

Example unescape_pairs :
  unescape "a\nb\\n" = "a" +:+ newline +:+ "b\" +:+ newline.
Proof. reflexivity. Qed.

(** C7, as the code has it: for every template written with the fields
    [{member}], [{server}], [{mention}] and literal characters (a literal
    brace doubled), and for every member, rendering succeeds; its text is
    the template with each field replaced by the display name, the guild
    name or the mention, and then every backslash followed by [n] in that
    text, whether it stood in the template or in a substituted value,
    replaced by a newline. *)
Theorem render_template_of (member : Member) (segs : list Segment)
    (other : option string) :
  render (template_of segs) member other
  = Some (unescape (expand member segs)).
Proof.
  unfold render. by rewrite format_template_of, replace_unescape.
Qed.

(** C7 fails as stated: the template [Hi {member}!] rendered for a member
    whose display name is [a], backslash, [n], [b] does not show that
    display name, the replacement of backslash-n reaches into it; and a
    template with a field the module does not know is not rendered at
    all. *)
Lemma render_not_spec_render :
  render "Hi {member}!" Scenario.nina None
    = Some ("Hi a" +:+ newline +:+ "b!")
  ∧ spec_render "Hi {member}!" Scenario.nina = "Hi a\nb!"
  ∧ render "Hi {member}!" Scenario.nina None
    ≠ Some (spec_render "Hi {member}!" Scenario.nina)
  ∧ render "Hi {member}, meet {staff}" Scenario.alice None = None.
Proof.
  repeat split; try reflexivity. vm_compute. discriminate.
Qed.

(** ** Greet counters *)

(** C10: without a row for the guild and the greeter, [get_greet_count]
    is 0, and the [welcome-count] command, once the store is ready,
    answers that the member has not welcomed anyone. *)
Theorem greet_count_without_row (w : Welcome) (interaction : Interaction)
    (member : option Member) :
  let target := target_of interaction member in
  let g := guild_id (interaction_guild interaction) in
  welcome_greet_counts (db w) !! (g, member_id target) = None →
  get_greet_count (db w) g (member_id target) = 0
  ∧ (db_ready w = true →
     ∃ member_str,
       greet_count w interaction member
       = (w, [log_client (member_str +:+ " not welcomed anyone in this server.")])
       ∧ member_str =
           if member_id (user interaction) =? member_id target then "You have"
           else mention target +:+ " has").
Proof.
  intros target g Hrow.
  assert (get_greet_count (db w) g (member_id target) = 0) as Hcount.
  { unfold get_greet_count. by rewrite Hrow. }
  split; [done|]. intros Hready. eexists. split; [|reflexivity].
  unfold greet_count, db_ready_only. rewrite Hready.
  fold target. fold g. by rewrite Hcount.
Qed.

Lemma greet_count_without_row_witness :
  get_greet_count (db Scenario.configured) 1 2 = 0
  ∧ greet_count Scenario.configured Scenario.admin (Some Scenario.alice)
    = (Scenario.configured, [log_client "<@2> has not welcomed anyone in this server."]).
Proof.
  destruct (greet_count_without_row Scenario.configured Scenario.admin
              (Some Scenario.alice)) as [Hzero Hcommand]; [reflexivity|].
  split; [exact Hzero|].
  destruct (Hcommand eq_refl) as (member_str & -> & ->). reflexivity.
Defined.

Lemma greet_count_with_row_example :
  greet_count
    (callback Scenario.configured (WelcomeButton_init Scenario.alice) Scenario.admin).1.1
    Scenario.admin None
  = ((callback Scenario.configured (WelcomeButton_init Scenario.alice)
        Scenario.admin).1.1,
     [log_client "You have welcomed 1 member in this server."]).
Proof. reflexivity. Qed.

(** ** The greet button *)

(** C5: a press by the greeted member, or by a member whose id is already
    among the greeters, is answered by a notice to the presser and changes
    nothing: the cog with its counters and the button with its greeters
    and label come back as they were. *)
Theorem callback_rejects (w : Welcome) (self : WelcomeButton)
    (interaction : Interaction) :
  member_id (user interaction) = member_id (button_member self)
  ∨ member_id (user interaction) ∈ greeters self →
  ∃ notice, callback w self interaction = (w, self, [log_client notice]).
Proof.
  intros Hwho. unfold callback.
  destruct (Z.eqb_spec (member_id (user interaction)) (member_id (button_member self)))
    as [_|Hne]; [by eexists|].
  destruct Hwho as [?|Hin]; [done|].
  rewrite bool_decide_eq_true_2 by done. by eexists.
Qed.

Lemma callback_rejects_witness :
  (∃ notice,
     callback Scenario.configured (WelcomeButton_init Scenario.alice)
       {| user := Scenario.alice; interaction_guild := Scenario.server |}
     = (Scenario.configured, WelcomeButton_init Scenario.alice, [log_client notice]))
  ∧ (∃ notice,
      let pressed :=
        (callback Scenario.configured (WelcomeButton_init Scenario.alice)
           Scenario.admin).1 in
      callback pressed.1 pressed.2 Scenario.admin
      = (pressed.1, pressed.2, [log_client notice])).
Proof.
  split.
  - apply callback_rejects. left. reflexivity.
  - apply callback_rejects. right. vm_compute. apply list_elem_of_here.
Defined.







(** ** What sending and the listeners leave alone *)

Lemma send_formatted_message_frame (w : Welcome) (member : Member) (a : Answers)
    channel title message color view delete_after :
  let w' := (send_formatted_message w channel title message member color view
               delete_after a).1.1.1 in
  db w' = db w
  ∧ db_ready w' = db_ready w
  ∧ _active_join_messages w' = _active_join_messages w
  ∧ delete_log (discord w') = delete_log (discord w).
Proof.
  unfold send_formatted_message, create_task.
  repeat case_match; simplify_eq/=; done.
Qed.

(** A send that goes through, with a positive delay. *)
Lemma send_formatted_message_timed (w : Welcome) (member : Member) (a : Answers)
    channel title message color view delay text :
  render message member (format_other a) = Some text →
  send_raises a = false →
  0 < delay →
  let msg := {| message_id := next_message_id (discord w); message_channel := channel |} in
  let posted :=
    {| posted_channel := channel; posted_title := text;
       posted_author := display_name member; posted_color := color;
       posted_view := bool_decide (is_Some view) |} in
  send_formatted_message w channel title message member color view (Some delay) a
  = ({| db_ready := db_ready w;
        _active_join_messages := _active_join_messages w;
        db := db w;
        discord :=
          {| channel_messages := <[message_id msg := posted]> (channel_messages (discord w));
             next_message_id := next_message_id (discord w) + 1;
             delete_log := delete_log (discord w) |};
        loop :=
          {| tasks := <[next_task (loop w) := Sleeping msg delay]> (tasks (loop w));
             next_task := S (next_task (loop w)) |} |},
     [channel_send msg text view], Some msg, Some (next_task (loop w))).
Proof.
  intros Hrender Hsend Hdelay. unfold send_formatted_message.
  rewrite Hrender, Hsend.
  destruct (Z.ltb_spec 0 delay); [reflexivity | lia].
Qed.

(** A send that goes through, without a positive delay. *)
Lemma send_formatted_message_untimed (w : Welcome) (member : Member) (a : Answers)
    channel title message color view delay text :
  render message member (format_other a) = Some text →
  send_raises a = false →
  delay ≤ 0 →
  let msg := {| message_id := next_message_id (discord w); message_channel := channel |} in
  let posted :=
    {| posted_channel := channel; posted_title := text;
       posted_author := display_name member; posted_color := color;
       posted_view := bool_decide (is_Some view) |} in
  send_formatted_message w channel title message member color view (Some delay) a
  = ({| db_ready := db_ready w;
        _active_join_messages := _active_join_messages w;
        db := db w;
        discord :=
          {| channel_messages := <[message_id msg := posted]> (channel_messages (discord w));
             next_message_id := next_message_id (discord w) + 1;
             delete_log := delete_log (discord w) |};
        loop := loop w |},
     [channel_send msg text view], Some msg, None).
Proof.
  intros Hrender Hsend Hdelay. unfold send_formatted_message.
  rewrite Hrender, Hsend.
  destruct (Z.ltb_spec 0 delay); [lia | reflexivity].
Qed.

(** A send that fails. *)
Lemma send_formatted_message_failed (w : Welcome) (member : Member) (a : Answers)
    channel title message color view delete_after :
  render message member (format_other a) = None ∨ send_raises a = true →
  send_formatted_message w channel title message member color view delete_after a
  = (w, [log_error "Error sending formatted message: "], None, None).
Proof.
  intros Hfail. unfold send_formatted_message.
  destruct (render message member (format_other a)); [|done].
  destruct Hfail as [? | ->]; done.
Qed.

Lemma track_frame (w : Welcome) (member : Member) sent_msg delete_task join_duration :
  let w' := track w member sent_msg delete_task join_duration in
  db w' = db w ∧ db_ready w' = db_ready w
  ∧ discord w' = discord w ∧ loop w' = loop w.
Proof. unfold track. repeat case_match; done. Qed.

Lemma on_member_join_db (w : Welcome) (member : Member) (a : Answers) :
  db (on_member_join w member a).1 = db w.
Proof.
  unfold on_member_join. repeat case_match; simplify_eq/=; try done.
  match goal with
  | H : send_formatted_message ?w ?c ?t ?m ?mem ?col ?v ?d ?a = _ |- _ =>
      pose proof (send_formatted_message_frame w mem a c t m col v d) as Hf;
      rewrite H in Hf; simpl in Hf
  end.
  destruct Hf as (<- & _).
  apply track_frame.
Qed.

Lemma delete_join_message_frame (w : Welcome) (member : Member) (a : Answers) :
  let w' := (delete_join_message w member a).1 in
  db w' = db w ∧ db_ready w' = db_ready w
  ∧ next_message_id (discord w') = next_message_id (discord w)
  ∧ next_task (loop w') = next_task (loop w).
Proof.
  unfold delete_join_message, Message_delete, cancel.
  repeat case_match; simplify_eq/=; done.
Qed.

Lemma leave_announcement_frame (w : Welcome) (member : Member) (a : Answers) :
  let w' := (leave_announcement w member a).1 in
  db w' = db w ∧ db_ready w' = db_ready w
  ∧ _active_join_messages w' = _active_join_messages w
  ∧ delete_log (discord w') = delete_log (discord w).
Proof.
  unfold leave_announcement. repeat case_match; simplify_eq/=; try done.
  match goal with
  | H : send_formatted_message ?w ?c ?t ?m ?mem ?col ?v ?d ?a = _ |- _ =>
      pose proof (send_formatted_message_frame w mem a c t m col v d) as Hf;
      rewrite H in Hf; simpl in Hf
  end.
  done.
Qed.


Lemma on_member_remove_db (w : Welcome) (member : Member) (a : Answers) :
  db (on_member_remove w member a).1 = db w.
Proof.
  unfold on_member_remove. destruct (db_ready w); simpl; [|done].
  pose proof (delete_join_message_frame w member a) as (H1 & _).
  destruct (delete_join_message w member a) as [w1 out1]. simpl in H1.
  pose proof (leave_announcement_frame w1 member a) as (H2 & _).
  destruct (leave_announcement w1 member a) as [w2 out2]. simpl in *.
  congruence.
Qed.

(** ** Sequences of presses *)

Lemma get_greet_count_increment (d : Database) (g u g' u' : Z) :
  get_greet_count (increment_greet_count d g u) g' u'
  = get_greet_count d g' u' + (if decide ((g, u) = (g', u')) then 1 else 0).
Proof.
  unfold get_greet_count, increment_greet_count. simpl.
  destruct (decide ((g, u) = (g', u'))) as [<-|Hne].
  - rewrite lookup_insert_eq. destruct (welcome_greet_counts d !! (g, u)); lia.
  - rewrite lookup_insert_ne by done. lia.
Qed.

Lemma press_all_spec (g : Z) (presses : list Interaction) :
  ∀ (w : Welcome) (self : WelcomeButton),
    Forall (λ i, guild_id (interaction_guild i) = g) presses →
    NoDup (greeters self) →
    let r := press_all w self presses in
    NoDup (greeters r.2)
    ∧ button_member r.2 = button_member self
    ∧ (∀ u, u ∈ greeters r.2 ↔ u ∈ greeters self ∨ newcomer self presses u)
    ∧ (∀ u, get_greet_count (db r.1) g u
            = get_greet_count (db w) g u
              + (if decide (newcomer self presses u) then 1 else 0)).
Proof.
  induction presses as [|i presses IH]; intros w self Hg Hnodup.
  { simpl. split; [done|]. split; [done|]. split.
    - intros u. unfold newcomer. rewrite fmap_nil. set_solver.
    - intros u. rewrite decide_False; [lia|].
      unfold newcomer. rewrite fmap_nil. set_solver. }
  apply Forall_cons in Hg as [Hi Hg].
  cbn [press_all]. unfold callback.
  destruct (Z.eqb_spec (member_id (user i)) (member_id (button_member self)))
    as [Hself|Hother].
  { (* the greeted member presses *)
    destruct (IH w self Hg Hnodup) as (IH1 & IH2 & IH3 & IH4).
    assert (∀ u, newcomer self (i :: presses) u ↔ newcomer self presses u) as Hsame.
    { intros u. unfold newcomer. rewrite fmap_cons. set_solver. }
    split; [done|]. split; [done|]. split.
    - intros u. rewrite IH3, Hsame. done.
    - intros u. rewrite IH4. by rewrite (decide_ext _ _ _ _ (Hsame u)). }
  destruct (decide (member_id (user i) ∈ greeters self)) as [Hin|Hnew].
  { (* a greeter presses again *)
    rewrite bool_decide_eq_true_2 by done.
    destruct (IH w self Hg Hnodup) as (IH1 & IH2 & IH3 & IH4).
    assert (∀ u, newcomer self (i :: presses) u ↔ newcomer self presses u) as Hsame.
    { intros u. unfold newcomer. rewrite fmap_cons. set_solver. }
    split; [done|]. split; [done|]. split.
    - intros u. rewrite IH3, Hsame. done.
    - intros u. rewrite IH4. by rewrite (decide_ext _ _ _ _ (Hsame u)). }
  (* a first press *)
  rewrite bool_decide_eq_false_2 by done.
  set (self1 := {| label := _; button_member := button_member self;
                   greeters := greeters self ++ [member_id (user i)] |}).
  set (w1 := with_db w _).
  assert (NoDup (greeters self1)) as Hnodup1.
  { simpl. apply NoDup_app. split; [done|]. split; [|apply NoDup_singleton].
    intros u Hu ->%list_elem_of_singleton. done. }
  destruct (IH w1 self1 Hg Hnodup1) as (IH1 & IH2 & IH3 & IH4).
  assert (∀ u, newcomer self (i :: presses) u
               ↔ u = member_id (user i) ∨ newcomer self1 presses u) as Hsplit.
  { intros u. unfold newcomer. rewrite fmap_cons. simpl.
    rewrite elem_of_app, list_elem_of_singleton, elem_of_cons.
    destruct (decide (u = member_id (user i))) as [->|]; naive_solver. }
  split; [done|]. split; [done|]. split.
  - intros u. rewrite IH3, Hsplit. simpl.
    rewrite elem_of_app, list_elem_of_singleton. naive_solver.
  - intros u. rewrite IH4. unfold w1. simpl db.
    rewrite get_greet_count_increment, Hi.
    destruct (decide (newcomer self (i :: presses) u)) as [Hyes|Hno];
      destruct (decide (newcomer self1 presses u)) as [Hyes1|Hno1];
      destruct (decide ((g, member_id (user i)) = (g, u))) as [[= Hu]|Hkey];
      try lia; exfalso.
    + destruct Hyes1 as (_ & Hnot & _). apply Hnot. simpl. rewrite <-Hu.
      apply elem_of_app. right. by apply list_elem_of_singleton.
    + apply Hsplit in Hyes as [->|]; done.
    + apply Hno, Hsplit. by left.
    + apply Hno, Hsplit. by right.
    + apply Hno, Hsplit. by left.
Qed.

Lemma db_ready_only_counts (w : Welcome) (body : Welcome * list Output) :
  welcome_greet_counts (db body.1) = welcome_greet_counts (db w) →
  welcome_greet_counts (db (db_ready_only w body).1) = welcome_greet_counts (db w).
Proof. unfold db_ready_only. by destruct (db_ready w). Qed.

(** Only the button writes to [welcome_greet_counts]. *)
Lemma run_greet_counts (w : Welcome) (op : Operation) :
  (∀ self interaction, op ≠ op_callback self interaction) →
  welcome_greet_counts (db (run w op)) = welcome_greet_counts (db w).
Proof.
  intros Hop. destruct op; simpl.
  - done.
  - by rewrite on_member_join_db.
  - by rewrite on_member_remove_db.
  - unfold delete_later, Message_delete. repeat case_match; simplify_eq/=; done.
  - apply db_ready_only_counts. cbv zeta. repeat case_match; done.
  - apply db_ready_only_counts. cbv zeta. repeat case_match; done.
  - apply db_ready_only_counts. cbv zeta. repeat case_match; done.
  - by apply db_ready_only_counts.
  - by apply db_ready_only_counts.
  - apply db_ready_only_counts. cbv zeta. repeat case_match; done.
  - apply db_ready_only_counts. cbv zeta. repeat case_match; done.
  - apply db_ready_only_counts. cbv zeta. repeat case_match; done.
  - apply db_ready_only_counts. cbv zeta. repeat case_match; done.
  - apply db_ready_only_counts. cbv zeta.
    pose proof (on_member_join_db w (target_of ctx member) a).
    destruct (on_member_join w (target_of ctx member) a). simpl in *. congruence.
  - apply db_ready_only_counts. cbv zeta.
    pose proof (on_member_remove_db w (target_of ctx member) a).
    destruct (on_member_remove w (target_of ctx member) a). simpl in *. congruence.
  - by destruct (Hop self interaction).
Qed.

Lemma run_greet_count_mono (w : Welcome) (op : Operation) (g u : Z) :
  get_greet_count (db w) g u ≤ get_greet_count (db (run w op)) g u.
Proof.
  destruct op;
    try (unfold get_greet_count; rewrite run_greet_counts by done; lia).
  cbn [run]. unfold callback.
  destruct (_ =? _); [cbn [fst]; lia|].
  destruct (bool_decide _); cbn [fst db with_db]; [lia|].
  rewrite get_greet_count_increment. case_decide; lia.
Qed.

(** Presses on one announcement, in guild [g], that are handled one after
    the other, starting from the button [__init__] made.  Then no id
    occurs twice among the greeters; the greeters are the pressers other
    than the greeted member; the stored counter of such a presser has
    gone up by exactly one, however often they pressed, and that of
    anyone else by nothing; and no operation of the module ever lowers a
    stored counter. *)
Theorem greet_once_per_presser (w : Welcome) (member : Member) (g : Z)
    (presses : list Interaction) :
  Forall (λ i, guild_id (interaction_guild i) = g) presses →
  let r := press_all w (WelcomeButton_init member) presses in
  let pressers := (λ i, member_id (user i)) <$> presses in
  NoDup (greeters r.2)
  ∧ (∀ u, u ∈ greeters r.2 ↔ (u ≠ member_id member ∧ u ∈ pressers))
  ∧ (∀ u, u ≠ member_id member → u ∈ pressers →
          get_greet_count (db r.1) g u = get_greet_count (db w) g u + 1)
  ∧ (∀ u, u = member_id member ∨ u ∉ pressers →
          get_greet_count (db r.1) g u = get_greet_count (db w) g u)
  ∧ (∀ w0 op g0 u0,
       get_greet_count (db w0) g0 u0 ≤ get_greet_count (db (run w0 op)) g0 u0).
Proof.
  intros Hg r pressers.
  destruct (press_all_spec g presses w (WelcomeButton_init member) Hg)
    as (H1 & _ & H3 & H4); [apply NoDup_nil_2|].
  fold r in H1, H3, H4.
  assert (∀ u, newcomer (WelcomeButton_init member) presses u
               ↔ u ≠ member_id member ∧ u ∈ pressers) as Hnew.
  { intros u. unfold newcomer. simpl. fold pressers. set_solver. }
  split; [done|]. split; [|split; [|split]].
  - intros u. rewrite H3, Hnew. simpl. set_solver.
  - intros u Hu Hin. rewrite H4, decide_True; [done|]. by apply Hnew.
  - intros u Hu. rewrite H4, decide_False; [lia|]. rewrite Hnew. naive_solver.
  - intros w0 op g0 u0. apply run_greet_count_mono.
Qed.

Lemma greet_once_per_presser_witness :
  let r := press_all Scenario.configured (WelcomeButton_init Scenario.alice)
             [Scenario.admin; Scenario.admin;
              {| user := Scenario.alice; interaction_guild := Scenario.server |}] in
  greeters r.2 = [3]
  ∧ get_greet_count (db r.1) 1 3 = get_greet_count (db Scenario.configured) 1 3 + 1
  ∧ get_greet_count (db r.1) 1 2 = get_greet_count (db Scenario.configured) 1 2.
Proof.
  intros r.
  destruct (greet_once_per_presser Scenario.configured Scenario.alice 1
              [Scenario.admin; Scenario.admin;
               {| user := Scenario.alice; interaction_guild := Scenario.server |}])
    as (_ & _ & Hup & Hsame & _).
  { repeat constructor. }
  split; [reflexivity|]. split.
  - apply Hup; [done|]. vm_compute. apply list_elem_of_here.
  - apply Hsame. by left.
Defined.

(** [callback] is its two halves run back to back. *)
Lemma callback_halves (w : Welcome) (self : WelcomeButton) (interaction : Interaction) :
  callback w self interaction
  = let '(w1, out, go) := callback_begin w self interaction in
    if go then
      let '(self', out') := callback_resume self interaction in (w1, self', out ++ out')
    else (w1, self, out).
Proof.
  unfold callback, callback_begin, callback_resume.
  repeat case_match; simplify_eq/=; done.
Qed.

Lemma callback_accepted (w : Welcome) (self : WelcomeButton) (interaction : Interaction) :
  let u := member_id (user interaction) in
  u ≠ member_id (button_member self) →
  u ∉ greeters self →
  callback w self interaction
  = (with_db w
       (increment_greet_count (db w) (guild_id (interaction_guild interaction)) u),
     (callback_resume self interaction).1, (callback_resume self interaction).2).
Proof.
  intros u Hother Hnew. unfold callback, callback_resume. fold u.
  by rewrite (proj2 (Z.eqb_neq _ _) Hother), bool_decide_eq_false_2.
Qed.

Lemma callback_again (w : Welcome) (self : WelcomeButton) (interaction : Interaction) :
  let u := member_id (user interaction) in
  u ≠ member_id (button_member self) →
  u ∈ greeters self →
  callback w self interaction
  = (w, self, [log_client "You have already welcomed this member!"]).
Proof.
  intros u Hother Hin. unfold callback. fold u.
  by rewrite (proj2 (Z.eqb_neq _ _) Hother), bool_decide_eq_true_2.
Qed.

(** C6 on the code.  A member other than the greeted one, not a greeter
    yet, presses the button twice, the second press arriving while the
    first callback waits on [increment_greet_count]: the test of line 515
    is passed by both presses, the id of the presser is appended twice,
    the stored counter goes up by two and neither press is answered with
    a refusal.  The same two presses handled one after the other append
    the id once and add one. *)
Theorem overlapping_presses_both_accepted (w : Welcome) (self : WelcomeButton)
    (interaction : Interaction) :
  let u := member_id (user interaction) in
  let g := guild_id (interaction_guild interaction) in
  u ≠ member_id (button_member self) →
  u ∉ greeters self →
  let r := overlapping_presses w self interaction interaction in
  let r' := press_all w self [interaction; interaction] in
  greeters r.1.2 = greeters self ++ [u; u]
  ∧ ¬ NoDup (greeters r.1.2)
  ∧ get_greet_count (db r.1.1) g u = get_greet_count (db w) g u + 2
  ∧ label r.1.2 = label_for (length (greeters self) + 2)
  ∧ (∀ text, log_client text ∉ r.2)
  ∧ greeters r'.2 = greeters self ++ [u]
  ∧ get_greet_count (db r'.1) g u = get_greet_count (db w) g u + 1.
Proof.
  intros u g Hother Hnew r r'.
  assert (greeters r.1.2 = greeters self ++ [u; u]
          ∧ db r.1.1 = increment_greet_count (increment_greet_count (db w) g u) g u
          ∧ label r.1.2 = label_for (length (greeters self) + 2)
          ∧ ∀ text, log_client text ∉ r.2) as (Hgreeters & Hdb & Hlabel & Hout).
  { subst r. unfold overlapping_presses, callback_begin, callback_resume.
    fold u g. rewrite (proj2 (Z.eqb_neq _ _) Hother), bool_decide_eq_false_2 by done.
    cbn [fst snd db with_db greeters label app].
    rewrite <- (assoc_L (++)). split; [done|]. split; [done|]. split.
    - rewrite !length_app. cbn [length].
      replace (length (greeters self) + (1 + 1))%nat
        with (S (S (length (greeters self)))) by lia.
      replace (length (greeters self) + 2)%nat
        with (S (S (length (greeters self)))) by lia.
      done.
    - intros text Hin. rewrite !elem_of_cons in Hin.
      destruct Hin as [?|[?|[?|[?|Hin]]]]; try done.
      by apply elem_of_nil in Hin. }
  assert (greeters r'.2 = greeters self ++ [u]
          ∧ db r'.1 = increment_greet_count (db w) g u) as (Hgreeters' & Hdb').
  { subst r'. cbn [press_all].
    rewrite (callback_accepted w self interaction Hother Hnew).
    cbv beta iota zeta.
    rewrite callback_again;
      [done | done | apply elem_of_app; right; apply list_elem_of_here]. }
  split; [done|]. split; [|split; [|split; [done|split; [done|split; [done|]]]]].
  - rewrite Hgreeters. intros Hnodup.
    apply NoDup_app in Hnodup as (_ & _ & Hnodup).
    apply NoDup_cons in Hnodup as [Hnotin _]. apply Hnotin, list_elem_of_here.
  - rewrite Hdb, !get_greet_count_increment, decide_True by done. lia.
  - rewrite Hdb', get_greet_count_increment, decide_True by done. lia.
Qed.

Lemma overlapping_presses_both_accepted_witness :
  let r := overlapping_presses Scenario.configured (WelcomeButton_init Scenario.alice)
             Scenario.admin Scenario.admin in
  greeters r.1.2 = [3; 3]
  ∧ get_greet_count (db Scenario.configured) 1 3 = 0
  ∧ get_greet_count (db r.1.1) 1 3 = 2
  ∧ label r.1.2 = "👋 Welcomed (2)".
Proof.
  intros r.
  destruct (overlapping_presses_both_accepted Scenario.configured
              (WelcomeButton_init Scenario.alice) Scenario.admin)
    as (Hgreeters & _ & Hcount & Hlabel & _).
  { simpl. lia. }
  { simpl. apply not_elem_of_nil. }
  split; [exact Hgreeters|]. split; [reflexivity|].
  split; [exact Hcount | exact Hlabel].
Defined.

(** ** The join settings command *)

(** C8: [settings] called with at least one argument.  The row of the
    guild afterwards holds, in each of the four join columns, the
    argument when one was supplied and otherwise what the column held
    before (what [init_db] declares as its default when there was no
    row); its four leave columns are those of the row before (the declared
    defaults when there was none); the rows of other guilds and the other
    tables are as before.  While the store is not ready the command
    changes nothing at all. *)
Theorem set_join_config_partial_update (w : Welcome) (ctx : Interaction)
    (channel : option Z) (title : option string) (enable : option bool)
    (duration : option Z) :
  let g := guild_id (interaction_guild ctx) in
  let w' := (set_join_config w ctx channel title enable duration).1 in
  let old := default default_row (welcome_config (db w) !! g) in
  ¬ (channel = None ∧ title = None ∧ enable = None ∧ duration = None) →
  (db_ready w = false → w' = w)
  ∧ (db_ready w = true →
     ∃ r, welcome_config (db w') !! g = Some r
       ∧ (channel = None → join_channel_id r = join_channel_id old)
       ∧ (title = None → join_title r = join_title old)
       ∧ (enable = None → join_enabled r = join_enabled old)
       ∧ (duration = None → join_duration r = join_duration old)
       ∧ (∀ c, channel = Some c → join_channel_id r = Some c)
       ∧ (∀ t, title = Some t → join_title r = Some t)
       ∧ (∀ b, enable = Some b → join_enabled r = Some (if b then 1 else 0))
       ∧ (∀ d, duration = Some d → join_duration r = Some d)
       ∧ leave_channel_id r = leave_channel_id old
       ∧ leave_title r = leave_title old
       ∧ leave_enabled r = leave_enabled old
       ∧ leave_duration r = leave_duration old
       ∧ (∀ g', g' ≠ g →
            welcome_config (db w') !! g' = welcome_config (db w) !! g')
       ∧ welcome_join_messages (db w') = welcome_join_messages (db w)
       ∧ welcome_leave_messages (db w') = welcome_leave_messages (db w)
       ∧ welcome_greet_counts (db w') = welcome_greet_counts (db w)).
Proof.
  intros g w' old Hsome. subst w'. unfold set_join_config, db_ready_only.
  split; intros ->; [reflexivity|].
  fold g.
  assert (old = default default_row (welcome_config (db w) !! g)) as Hold by done.
  destruct (welcome_config (db w) !! g) as [r0|] eqn:Hrow; simpl in Hold; subst old;
    destruct channel, title, enable, duration;
    try (exfalso; apply Hsome; done);
    (eexists; split; [apply lookup_insert_eq|]);
    simpl; repeat split; try done; try congruence;
    try (intros g' Hg'; by apply lookup_insert_ne);
    by intros ? [= <-].
Qed.

Lemma set_join_config_partial_update_witness :
  let w' := (set_join_config Scenario.configured Scenario.admin
               None (Some "Hello") None None).1 in
  welcome_config (db w') !! 1
  = Some {| join_enabled := Some 1; leave_enabled := Some 1;
            join_channel_id := Some 10; leave_channel_id := Some 10;
            join_title := Some "Hello"; leave_title := Some "Goodbye";
            join_duration := Some 30; leave_duration := Some 0 |}
  ∧ ∃ r, welcome_config (db w') !! 1 = Some r
       ∧ join_duration r = Some 30 ∧ leave_channel_id r = Some 10.
Proof.
  intros w'. split; [reflexivity|].
  destruct (set_join_config_partial_update Scenario.configured Scenario.admin
              None (Some "Hello") None None) as [_ Hready].
  { intros (_ & Htitle & _). discriminate Htitle. }
  destruct (Hready eq_refl)
    as (r & Hr & _ & _ & _ & Hduration & _ & _ & _ & _ & Hchannel & _).
  exists r. split; [exact Hr|]. split.
  - rewrite Hduration; reflexivity.
  - rewrite Hchannel. reflexivity.
Defined.

(** A first [settings] call on a guild without a row creates the row with
    the declared defaults in the columns it was not given. *)
Example set_join_config_first_call :
  welcome_config
    (db (set_join_config Scenario.started Scenario.admin None None None (Some 30)).1) !! 1
  = Some {| join_enabled := Some 1; leave_enabled := Some 1;
            join_channel_id := None; leave_channel_id := None;
            join_title := Some "Welcome"; leave_title := Some "Goodbye";
            join_duration := Some 30; leave_duration := Some 0 |}.
Proof. reflexivity. Qed.

(** ** The registry of pending join announcements *)

Lemma pending_track (w : Welcome) (member : Member) (msg : Message)
    (task : option nat) (d : Z) (g m : Z) :
  0 < d →
  pending (track w member (Some msg) task d) g m
  = if decide ((guild_id (guild member), member_id member) = (g, m))
    then Some (msg, task) else pending w g m.
Proof.
  intros Hd. unfold track, pending.
  destruct (Z.ltb_spec 0 d); [|lia]. simpl.
  destruct (decide (guild_id (guild member) = g)) as [<-|Hg].
  - rewrite lookup_insert_eq. simpl.
    destruct (decide (member_id member = m)) as [<-|Hm].
    + rewrite lookup_insert_eq. by rewrite decide_True.
    + rewrite lookup_insert_ne by done. rewrite decide_False by congruence.
      destruct (_active_join_messages w !! guild_id (guild member)); done.
  - rewrite lookup_insert_ne by done. by rewrite decide_False by congruence.
Qed.

Lemma track_unchanged (w : Welcome) (member : Member) (sent_msg : option Message)
    (task : option nat) (d : Z) :
  sent_msg = None ∨ d ≤ 0 → track w member sent_msg task d = w.
Proof.
  intros H. unfold track. destruct sent_msg as [msg|]; [|done].
  destruct (Z.ltb_spec 0 d); [|done]. destruct H; [done | lia].
Qed.

(** What [on_member_join] does once the store is ready and the guild's
    configuration lets it send. *)
Lemma on_member_join_ready (w : Welcome) (member : Member) (a : Answers)
    channel title messages d :
  db_ready w = true →
  load_join (db w) member = Ready channel title messages d →
  let s := send_formatted_message w channel title (choice messages (pick a))
             member green (Some (WelcomeButton_init member)) (Some d) a in
  on_member_join w member a = (track s.1.1.1 member s.1.2 s.2 d, s.1.1.2).
Proof.
  intros Hready Hload s. unfold on_member_join. rewrite Hready, Hload. simpl.
  fold s. by destruct s as [[[w1 out] sent_msg] delete_task].
Qed.

Lemma load_join_duration (d : Database) (member : Member) channel title messages duration :
  load_join d member = Ready channel title messages duration →
  duration = configured_join_duration d (guild_id (guild member)).
Proof.
  unfold load_join, configured_join_duration.
  repeat case_match; intros; simplify_eq; done.
Qed.

Lemma load_join_stop_sent (d : Database) (member : Member) out :
  load_join d member = Stop out → sent_in out = None.
Proof.
  unfold load_join. repeat case_match; intros; simplify_eq; done.
Qed.

(** C2, as the code has it: [on_member_join] puts an entry for the
    guild and the member in the registry exactly when the announcement
    was sent and the configured join duration is above zero, and the entry
    then holds the sent message and its deletion task; in every other
    case it leaves the registry as it found it, so that no entry exists
    for the pair afterwards unless one was registered before the join. *)
Theorem on_member_join_tracks (w : Welcome) (member : Member) (a : Answers) :
  let g := guild_id (guild member) in
  let m := member_id member in
  let r := on_member_join w member a in
  let d := configured_join_duration (db w) g in
  (∀ msg, sent_in r.2 = Some msg → 0 < d →
          ∃ task, pending r.1 g m = Some (msg, Some task))
  ∧ (sent_in r.2 = None ∨ d ≤ 0 →
     _active_join_messages r.1 = _active_join_messages w)
  ∧ (pending w g m = None →
     (is_Some (pending r.1 g m) ↔ is_Some (sent_in r.2) ∧ 0 < d)).
Proof.
  intros g m r d.
  assert ((∀ msg, sent_in r.2 = Some msg → 0 < d →
                  ∃ task, pending r.1 g m = Some (msg, Some task))
          ∧ (sent_in r.2 = None ∨ d ≤ 0 →
             _active_join_messages r.1 = _active_join_messages w)) as [Hyes Hno].
  { subst r. destruct (db_ready w) eqn:Hready; cycle 1.
    { unfold on_member_join. rewrite Hready. simpl. split; [done|done]. }
    destruct (load_join (db w) member) as [out|channel title messages d'] eqn:Hload.
    { unfold on_member_join. rewrite Hready, Hload. simpl.
      rewrite (load_join_stop_sent _ _ _ Hload). split; [done|done]. }
    rewrite (on_member_join_ready _ _ _ _ _ _ _ Hready Hload).
    apply load_join_duration in Hload. fold g d in Hload. subst d'.
    set (message := choice messages (pick a)).
    destruct (render message member (format_other a)) as [text|] eqn:Hrender; cycle 1.
    { rewrite send_formatted_message_failed by by left. cbn [fst snd].
      split; [done|]. intros _. by rewrite track_unchanged by by left. }
    destruct (send_raises a) eqn:Hsend.
    { rewrite send_formatted_message_failed by by right. cbn [fst snd].
      split; [done|]. intros _. by rewrite track_unchanged by by left. }
    destruct (Z.lt_ge_cases 0 d) as [Hd|Hd].
    - rewrite (send_formatted_message_timed _ _ _ _ _ _ _ _ _ text) by done.
      cbn [fst snd]. split.
      + intros msg [= <-] _. eexists. rewrite pending_track by done.
        by rewrite decide_True.
      + intros [?|?]; [done | lia].
    - rewrite (send_formatted_message_untimed _ _ _ _ _ _ _ _ _ text) by done.
      cbn [fst snd]. split; [lia|]. intros _. by rewrite track_unchanged by by right. }
  split; [done|]. split; [done|].
  intros Hnone. split.
  - intros Hsome.
    destruct (sent_in r.2) as [msg|] eqn:Hsent, (Z.lt_ge_cases 0 d) as [Hd|Hd];
      try (split; [by eexists | done]); exfalso;
      (assert (pending r.1 g m = pending w g m) as Hsame
         by (unfold pending; rewrite Hno; [done | auto]));
      rewrite Hsame, Hnone in Hsome; by destruct Hsome.
  - intros [[msg Hsent] Hd]. destruct (Hyes msg Hsent Hd) as [task ->]. by eexists.
Qed.

(** C2 fails as stated: the guild's join duration was 30 when alice's
    first announcement (message 100) was sent and is 0 when the join
    listener runs for her again, as the [test] command makes it do; the
    second announcement is sent, no entry is made for it, and the entry
    for the pair, that of the first announcement, is still in the
    registry afterwards. *)
Lemma on_member_join_keeps_entry :
  let w := (set_join_config Scenario.joined Scenario.admin None None None (Some 0)).1 in
  let r := on_member_join w Scenario.alice Scenario.fine in
  configured_join_duration (db w) 1 = 0
  ∧ sent_in r.2 = Some {| message_id := 101; message_channel := 10 |}
  ∧ pending r.1 1 2
    = Some ({| message_id := 100; message_channel := 10 |}, Some 0%nat)
  ∧ (test_join_message w Scenario.admin (Some Scenario.alice) Scenario.fine).1 = r.1.
Proof. vm_compute. done. Qed.

Lemma on_member_join_tracks_witness :
  ∃ task,
    pending (on_member_join Scenario.configured Scenario.alice Scenario.fine).1 1 2
    = Some ({| message_id := 100; message_channel := 10 |}, Some task).
Proof.
  destruct (on_member_join_tracks Scenario.configured Scenario.alice Scenario.fine)
    as [Hyes _].
  apply Hyes; [reflexivity | reflexivity].
Defined.

(** C4: when [on_member_join] registers an announcement (the guild lets
    it send, the send goes through, the duration is above zero) for a pair
    that has an entry already, the registry afterwards maps the pair to
    the message just sent and the task just made for it; nothing is
    deleted and no task is cancelled on the way: the log of delete calls
    is as before, and so are all messages and all tasks other than the
    new ones. *)
Theorem on_member_join_overwrites (w : Welcome) (member : Member) (a : Answers)
    (old : Message * option nat) channel title messages d text :
  let g := guild_id (guild member) in
  let m := member_id member in
  db_ready w = true →
  pending w g m = Some old →
  load_join (db w) member = Ready channel title messages d →
  render (choice messages (pick a)) member (format_other a) = Some text →
  send_raises a = false →
  0 < d →
  let w' := (on_member_join w member a).1 in
  let msg := {| message_id := next_message_id (discord w); message_channel := channel |} in
  let task := next_task (loop w) in
  pending w' g m = Some (msg, Some task)
  ∧ sent_in (on_member_join w member a).2 = Some msg
  ∧ tasks (loop w') !! task = Some (Sleeping msg d)
  ∧ delete_log (discord w') = delete_log (discord w)
  ∧ (∀ id, id ≠ message_id msg →
       channel_messages (discord w') !! id = channel_messages (discord w) !! id)
  ∧ (∀ t, t ≠ task → tasks (loop w') !! t = tasks (loop w) !! t)
  ∧ (∀ g' m', (g', m') ≠ (g, m) → pending w' g' m' = pending w g' m').
Proof.
  intros g m Hready Hold Hload Hrender Hsend Hd w' msg task. subst w'.
  rewrite (on_member_join_ready _ _ _ _ _ _ _ Hready Hload).
  rewrite (send_formatted_message_timed _ _ _ _ _ _ _ _ _ text) by done.
  cbn [fst snd]. fold msg task.
  split; [|split; [done|]].
  { rewrite pending_track by done. by rewrite decide_True. }
  unfold track. destruct (Z.ltb_spec 0 d); [|lia]. simpl.
  split; [apply lookup_insert_eq|]. split; [done|].
  split; [intros id Hid; by apply lookup_insert_ne|].
  split; [intros t Ht; by apply lookup_insert_ne|].
  intros g' m' Hne.
  pose proof (pending_track
    {| db_ready := db_ready w; _active_join_messages := _active_join_messages w;
       db := db w;
       discord := {| channel_messages :=
                       <[message_id msg :=
                           {| posted_channel := channel; posted_title := text;
                              posted_author := display_name member;
                              posted_color := green;
                              posted_view :=
                                bool_decide (is_Some (Some (WelcomeButton_init member))) |}]>
                         (channel_messages (discord w));
                     next_message_id := next_message_id (discord w) + 1;
                     delete_log := delete_log (discord w) |};
       loop := {| tasks := <[task := Sleeping msg d]> (tasks (loop w));
                  next_task := S task |} |}
    member msg (Some task) d g' m' Hd) as Hp.
  unfold track in Hp. destruct (Z.ltb_spec 0 d); [|lia].
  fold g m in Hp. rewrite decide_False in Hp by congruence.
  exact Hp.
Qed.

Lemma on_member_join_overwrites_witness :
  let r := on_member_join Scenario.joined Scenario.alice Scenario.fine in
  pending Scenario.joined 1 2
  = Some ({| message_id := 100; message_channel := 10 |}, Some 0%nat)
  ∧ pending r.1 1 2
    = Some ({| message_id := 101; message_channel := 10 |}, Some 1%nat)
  ∧ delete_log (discord r.1) = []
  ∧ tasks (loop r.1) !! 0%nat
    = Some (Sleeping {| message_id := 100; message_channel := 10 |} 30).
Proof.
  intros r.
  destruct (on_member_join_overwrites Scenario.joined Scenario.alice Scenario.fine
              ({| message_id := 100; message_channel := 10 |}, Some 0%nat)
              10 (Some "Welcome") ["Hi {member}!"] 30 "Hi Alice!")
    as (Hnew & _ & _ & Hlog & _ & Htasks & _);
    try reflexivity.
  split; [reflexivity|]. split; [exact Hnew|]. split; [exact Hlog|].
  fold r in Htasks. rewrite Htasks by discriminate. reflexivity.
Defined.

(** With a join duration of 0 the announcement is sent, no task is made
    and no entry registered, and the member leaving does not delete it. *)
Example join_without_duration :
  let w := (set_join_config Scenario.configured Scenario.admin None None None (Some 0)).1 in
  let w1 := (on_member_join w Scenario.alice Scenario.fine).1 in
  let w2 := (on_member_remove w1 Scenario.alice Scenario.fine).1 in
  is_Some (channel_messages (discord w1) !! 100)
  ∧ tasks (loop w1) = ∅
  ∧ pending w1 1 2 = None
  ∧ is_Some (channel_messages (discord w2) !! 100)
  ∧ delete_log (discord w2) = [].
Proof. vm_compute. repeat split; by eexists. Qed.

(** ** Leaving, and the timer *)

Lemma pending_pop (w : Welcome) (guild_msgs : gmap Z (Message * option nat))
    (g m g' m' : Z) :
  _active_join_messages w !! g = Some guild_msgs →
  pending (with_registry w (<[g := delete m guild_msgs]> (_active_join_messages w))) g' m'
  = if decide ((g, m) = (g', m')) then None else pending w g' m'.
Proof.
  intros Hg. unfold pending. simpl.
  destruct (decide (g = g')) as [<-|Hne].
  - rewrite lookup_insert_eq, Hg. simpl.
    destruct (decide (m = m')) as [<-|Hm].
    + rewrite lookup_delete_eq. by rewrite decide_True.
    + rewrite lookup_delete_ne by done. by rewrite decide_False by congruence.
  - rewrite lookup_insert_ne by done. by rewrite decide_False by congruence.
Qed.

Lemma delete_join_message_none (w : Welcome) (member : Member) (a : Answers) :
  pending w (guild_id (guild member)) (member_id member) = None →
  delete_join_message w member a = (w, []).
Proof.
  unfold pending, delete_join_message.
  destruct (_active_join_messages w !! guild_id (guild member)) as [guild_msgs|];
    simpl; [|done].
  by intros ->.
Qed.

Lemma delete_join_message_entry (w : Welcome) (member : Member) (a : Answers)
    (msg : Message) (task : option nat) :
  let g := guild_id (guild member) in
  let m := member_id member in
  pending w g m = Some (msg, task) →
  let r := delete_join_message w member a in
  (∀ g' m', pending r.1 g' m'
            = if decide ((g, m) = (g', m')) then None else pending w g' m')
  ∧ delete_log (discord r.1) = delete_log (discord w) ++ [message_id msg]
  ∧ (delete_refused a = true →
     loop r.1 = loop w
     ∧ channel_messages (discord r.1) = channel_messages (discord w)
     ∧ r.2 = [log_error "Failed to delete join message for leaving member: "])
  ∧ (delete_refused a = false →
     loop r.1 = match task with Some t => cancel (loop w) t | None => loop w end
     ∧ channel_messages (discord r.1)
       = delete (message_id msg) (channel_messages (discord w))
     ∧ r.2 = []).
Proof.
  intros g m Hentry r. subst r. unfold pending in Hentry.
  destruct (_active_join_messages w !! g) as [guild_msgs|] eqn:Hg; [|done].
  simpl in Hentry. unfold delete_join_message. fold g m. rewrite Hg, Hentry.
  unfold Message_delete.
  destruct (delete_refused a); cbn [discord with_registry].
  - cbn [fst snd]. split; [intros; by apply pending_pop|]. done.
  - destruct (channel_messages (discord w) !! message_id msg) eqn:Hlive;
      cbn [fst snd];
      (split; [intros g' m'; destruct task; by apply pending_pop|]);
      (split; [by destruct task|]); (split; [done|]); intros _;
      destruct task; repeat split; simpl; try done;
      by rewrite delete_id.
Qed.

Lemma send_formatted_message_tasks (w : Welcome) (member : Member) (a : Answers)
    channel title message color view delete_after (t : nat) :
  (t < next_task (loop w))%nat →
  tasks (loop (send_formatted_message w channel title message member color view
                 delete_after a).1.1.1) !! t
  = tasks (loop w) !! t.
Proof.
  intros Ht. unfold send_formatted_message, create_task.
  repeat case_match; simplify_eq/=; try done.
  apply lookup_insert_ne. lia.
Qed.

Lemma leave_announcement_tasks (w : Welcome) (member : Member) (a : Answers) (t : nat) :
  (t < next_task (loop w))%nat →
  tasks (loop (leave_announcement w member a).1) !! t = tasks (loop w) !! t.
Proof.
  intros Ht. unfold leave_announcement.
  destruct (load_leave (db w) member) as [out|channel title messages d]; [done|].
  pose proof (send_formatted_message_tasks w member a channel title
                (choice messages (pick a)) red None (Some d) t Ht) as Hs.
  by destruct (send_formatted_message _ _ _ _ _ _ _ _ _) as [[[w1 out] sm] tk].
Qed.


Lemma cancel_lookup (l : Loop) (t : nat) :
  tasks (cancel l t) !! t
  = match tasks l !! t with
    | Some (Sleeping _ _) => Some Cancelled
    | other => other
    end.
Proof.
  unfold cancel. destruct (tasks l !! t) as [[]|] eqn:H; simpl; try done.
  apply lookup_insert_eq.
Qed.

(** [on_member_remove] with the store ready: the early deletion, then the
    leave announcement. *)
Lemma on_member_remove_ready (w : Welcome) (member : Member) (a : Answers) :
  db_ready w = true →
  let r1 := delete_join_message w member a in
  let r2 := leave_announcement r1.1 member a in
  on_member_remove w member a = (r2.1, r1.2 ++ r2.2).
Proof.
  intros Hready r1 r2. unfold on_member_remove. rewrite Hready. simpl.
  fold r1. destruct r1 as [w1 out1]. simpl in r2. fold r2.
  by destruct r2 as [w2 out2].
Qed.

Lemma delete_later_registry (w : Welcome) (task : nat) (now : Z) (refused : bool) :
  _active_join_messages (delete_later w task now refused).1 = _active_join_messages w.
Proof.
  unfold delete_later, Message_delete. repeat case_match; simplify_eq/=; done.
Qed.

Lemma sent_in_app (out1 out2 : list Output) :
  sent_in (out1 ++ out2)
  = match sent_in out1 with Some msg => Some msg | None => sent_in out2 end.
Proof.
  induction out1 as [|o out1 IH]; [done|]. destruct o; simpl; done.
Qed.

Lemma delete_join_message_out (w : Welcome) (member : Member) (a : Answers) :
  let out := (delete_join_message w member a).2 in
  sent_in out = None
  ∧ (delete_refused a = false → out = []).
Proof.
  unfold delete_join_message, Message_delete.
  repeat case_match; simplify_eq/=; done.
Qed.

Lemma delete_join_message_pending (w : Welcome) (member : Member) (a : Answers) (g' m' : Z) :
  pending (delete_join_message w member a).1 g' m'
  = if decide ((guild_id (guild member), member_id member) = (g', m'))
    then None else pending w g' m'.
Proof.
  destruct (pending w (guild_id (guild member)) (member_id member))
    as [[msg task]|] eqn:Hentry.
  - by destruct (delete_join_message_entry w member a msg task Hentry) as [-> _].
  - rewrite delete_join_message_none by done. simpl.
    case_decide as Heq; [|done]. by injection Heq as <- <-.
Qed.

(** A delay within reach of the calendar, and one that is not. *)
Lemma deadline_in_range (now delay : Z) :
  0 ≤ now → 0 ≤ delay → now + delay * 1000000 < datetime_end →
  deadline_overflows now delay = false.
Proof.
  unfold deadline_overflows, datetime_end. intros Hnow Hdelay Hend.
  assert (delay / 86400 ≤ 999999999).
  { apply Z.lt_succ_r, Z.div_lt_upper_bound; lia. }
  assert (0 ≤ delay / 86400) by (apply Z.div_pos; lia).
  apply orb_false_intro; [apply orb_false_intro|]; lia.
Qed.

Lemma deadline_out_of_range (now delay : Z) :
  0 ≤ now → datetime_end ≤ delay * 1000000 →
  deadline_overflows now delay = true.
Proof.
  unfold deadline_overflows. intros Hnow Hend.
  apply orb_true_intro. right. lia.
Qed.

(** What the run of a task that still sleeps changes. *)
Lemma delete_later_sleeping (w : Welcome) (t : nat) (msg : Message) (delay now : Z)
    (refused : bool) :
  tasks (loop w) !! t = Some (Sleeping msg delay) →
  let w1 := (delete_later w t now refused).1 in
  _active_join_messages w1 = _active_join_messages w
  ∧ db w1 = db w
  ∧ db_ready w1 = db_ready w
  ∧ delete_log (discord w1)
    = delete_log (discord w)
      ++ (if deadline_overflows now delay then [] else [message_id msg])
  ∧ tasks (loop w1) = <[t := Finished]> (tasks (loop w))
  ∧ next_task (loop w1) = next_task (loop w).
Proof.
  intros Htask w1. subst w1. unfold delete_later, Message_delete. rewrite Htask.
  destruct (deadline_overflows now delay); [by rewrite app_nil_r|].
  repeat case_match; simplify_eq/=; done.
Qed.

(** [on_member_remove] is its two halves run back to back. *)
Lemma on_member_remove_halves (w : Welcome) (member : Member) (a : Answers) :
  let b := on_member_remove_begin w member a in
  on_member_remove w member a = on_member_remove_resume b.1 b.2 member a.
Proof.
  unfold on_member_remove, on_member_remove_begin, delete_join_message.
  destruct (db_ready w); simpl; [|done].
  destruct (_active_join_messages w !! guild_id (guild member)) as [guild_msgs|];
    simpl; [|by destruct (leave_announcement w member a)].
  destruct (guild_msgs !! member_id member) as [[msg task]|];
    simpl; [|by destruct (leave_announcement w member a)].
  unfold Message_delete.
  destruct (delete_refused a); simpl; [done|].
  destruct (channel_messages (discord w) !! message_id msg); simpl; done.
Qed.






Lemma leave_announcement_sent (w : Welcome) (member : Member) (a : Answers)
    channel title messages d text :
  load_leave (db w) member = Ready channel title messages d →
  render (choice messages (pick a)) member (format_other a) = Some text →
  send_raises a = false →
  let r := leave_announcement w member a in
  let sent := {| message_id := next_message_id (discord w); message_channel := channel |} in
  r.2 = [channel_send sent text None]
  ∧ channel_messages (discord r.1) !! message_id sent
    = Some {| posted_channel := channel; posted_title := text;
              posted_author := display_name member; posted_color := red;
              posted_view := false |}
  ∧ (0 < d → tasks (loop r.1) !! next_task (loop w) = Some (Sleeping sent d))
  ∧ (d ≤ 0 → loop r.1 = loop w).
Proof.
  intros Hload Hrender Hsend r sent. subst r. unfold leave_announcement.
  rewrite Hload.
  destruct (Z.lt_ge_cases 0 d) as [Hd|Hd].
  - rewrite (send_formatted_message_timed _ _ _ _ _ _ _ _ _ text) by done.
    simpl. split; [done|]. split; [apply lookup_insert_eq|].
    split; [intros _; apply lookup_insert_eq | lia].
  - rewrite (send_formatted_message_untimed _ _ _ _ _ _ _ _ _ text) by done.
    simpl. split; [done|]. split; [apply lookup_insert_eq|].
    split; [lia | done].
Qed.

(** C3, as the code has it, for a store that is ready.  When the pair
    has an entry, [on_member_remove] takes it out of the registry and
    makes one delete call for its message; unless that call fails with
    something other than not-found, no error is logged for it and the
    task of the entry is cancelled (a task that had finished stays
    finished).  Then, with or without an entry, the leave announcement
    follows from the leave columns of the guild's row: a message drawn
    from the leave messages is rendered and sent to the leave channel, a
    deletion task is made for it when the leave duration is above zero,
    and nothing is entered in the registry for it.  (The bound on the
    task handle holds of every entry of a reachable state, see
    [reachable_entries_ok].) *)
Theorem on_member_remove_flow (w : Welcome) (member : Member) (a : Answers) :
  let g := guild_id (guild member) in
  let m := member_id member in
  db_ready w = true →
  let r := on_member_remove w member a in
  (∀ msg task, pending w g m = Some (msg, task) →
     delete_log (discord r.1) = delete_log (discord w) ++ [message_id msg]
     ∧ (delete_refused a = false →
        (log_error "Failed to delete join message for leaving member: " ∉ r.2)
        ∧ ∀ t, task = Some t → (t < next_task (loop w))%nat →
               tasks (loop r.1) !! t
               = match tasks (loop w) !! t with
                 | Some (Sleeping _ _) => Some Cancelled
                 | other => other
                 end))
  ∧ (∀ g' m', pending r.1 g' m'
              = if decide ((g, m) = (g', m')) then None else pending w g' m')
  ∧ (∀ channel title messages d text,
       load_leave (db w) member = Ready channel title messages d →
       render (choice messages (pick a)) member (format_other a) = Some text →
       send_raises a = false →
       let sent :=
         {| message_id := next_message_id (discord w); message_channel := channel |} in
       sent_in r.2 = Some sent
       ∧ channel_messages (discord r.1) !! message_id sent
         = Some {| posted_channel := channel; posted_title := text;
                   posted_author := display_name member; posted_color := red;
                   posted_view := false |}
       ∧ (0 < d → tasks (loop r.1) !! next_task (loop w) = Some (Sleeping sent d))
       ∧ (d ≤ 0 → next_task (loop r.1) = next_task (loop w))).
Proof.
  intros g m Hready r. subst r.
  rewrite on_member_remove_ready by done. cbn [fst snd].
  set (r1 := delete_join_message w member a).
  destruct (delete_join_message_frame w member a) as (Hdb & _ & Hnext & Hnext_task).
  destruct (delete_join_message_out w member a) as (Hsent1 & Hout1).
  fold r1 in Hdb, Hnext, Hnext_task, Hsent1, Hout1.
  split; [|split].
  - intros msg task Hentry.
    destruct (delete_join_message_entry w member a msg task Hentry)
      as (_ & Hlog & _ & Hok). fold r1 in Hlog, Hok.
    destruct (leave_announcement_frame r1.1 member a) as (_ & _ & _ & ->).
    split; [done|]. intros Hdelete.
    destruct (Hok Hdelete) as (Hloop & _ & Hout). split.
    + rewrite Hout. simpl. unfold leave_announcement.
      destruct (load_leave (db r1.1) member) as [out|channel title messages d] eqn:Hload.
      * unfold load_leave in Hload. repeat case_match; simplify_eq/=; set_solver.
      * unfold send_formatted_message, create_task.
        repeat case_match; simplify_eq/=; set_solver.
    + intros t -> Ht.
      rewrite leave_announcement_tasks by (rewrite Hnext_task; exact Ht).
      rewrite Hloop. apply cancel_lookup.
  - intros g' m'. unfold pending.
    destruct (leave_announcement_frame r1.1 member a) as (_ & _ & -> & _).
    apply delete_join_message_pending.
  - intros channel title messages d text Hload Hrender Hsend.
    rewrite <-Hdb in Hload.
    destruct (leave_announcement_sent r1.1 member a channel title messages d text
                Hload Hrender Hsend) as (Hout & Hposted & Htimed & Huntimed).
    rewrite Hnext in Hout, Hposted, Htimed. rewrite Hnext_task in Htimed.
    split; [|split; [done|split; [done|]]].
    + rewrite sent_in_app, Hsent1, Hout. done.
    + intros Hd. by rewrite Huntimed.
Qed.

Lemma on_member_remove_flow_witness :
  let r := on_member_remove Scenario.joined Scenario.alice Scenario.fine in
  delete_log (discord r.1) = [100]
  ∧ tasks (loop r.1) !! 0%nat = Some Cancelled
  ∧ pending r.1 1 2 = None
  ∧ sent_in r.2 = Some {| message_id := 101; message_channel := 10 |}
  ∧ channel_messages (discord r.1) !! 101
    = Some {| posted_channel := 10; posted_title := "Bye Alice";
              posted_author := "Alice"; posted_color := red; posted_view := false |}.
Proof.
  intros r.
  destruct (on_member_remove_flow Scenario.joined Scenario.alice Scenario.fine eq_refl)
    as (Hentry & Hpending & Hleave).
  destruct (Hentry {| message_id := 100; message_channel := 10 |} (Some 0%nat) eq_refl)
    as (Hlog & Hok).
  destruct (Hok eq_refl) as (_ & Hcancel).
  destruct (Hleave 10 (Some "Goodbye") ["Bye {member}"] 0 "Bye Alice"
              eq_refl eq_refl eq_refl) as (Hsent & Hposted & _).
  split; [exact Hlog|]. split.
  { fold r in Hcancel. rewrite (Hcancel 0%nat eq_refl); [reflexivity|].
    vm_compute. lia. }
  split; [exact (Hpending 1 2)|]. split; [exact Hsent | exact Hposted].
Defined.

(** C3 fails as stated: alice leaves while her join announcement is
    pending and Discord refuses the delete call; the entry is removed and
    the error logged, but the deletion task is not cancelled and still
    sleeps.  And while the store is not ready, as after a restart with
    the guild's configuration on disk, a member leaving gets no leave
    announcement. *)
Lemma on_member_remove_skips_cancel :
  let r := on_member_remove Scenario.joined Scenario.alice Scenario.refused in
  pending r.1 1 2 = None
  ∧ log_error "Failed to delete join message for leaving member: " ∈ r.2
  ∧ tasks (loop r.1) !! 0%nat
    = Some (Sleeping {| message_id := 100; message_channel := 10 |} 30)
  ∧ on_member_remove (Scenario.restarting) Scenario.alice Scenario.fine
    = (Scenario.restarting, []).
Proof.
  repeat split; try reflexivity. vm_compute. apply list_elem_of_here.
Qed.

(** ** The entries of reachable states *)

Lemma entries_ok_frame (w w' : Welcome) :
  (db_ready w = true → db_ready w' = true) →
  (next_task (loop w) ≤ next_task (loop w'))%nat →
  (∀ g m e, pending w' g m = Some e → pending w g m = Some e) →
  entries_ok w → entries_ok w'.
Proof.
  intros Hready Hnext Hsub Hok g m msg task Hentry.
  destruct (Hok g m msg task (Hsub _ _ _ Hentry)) as (Hr & t & -> & Ht).
  split; [by apply Hready|]. exists t. split; [done | lia].
Qed.

Lemma entries_ok_db_ready_only (w : Welcome) (body : Welcome * list Output) :
  entries_ok w → (entries_ok w → entries_ok body.1) →
  entries_ok (db_ready_only w body).1.
Proof. unfold db_ready_only. destruct (db_ready w); auto. Qed.

Lemma entries_ok_with_db (w : Welcome) (d : Database) :
  entries_ok w → entries_ok (with_db w d).
Proof. apply entries_ok_frame; simpl; auto. Qed.

Lemma send_formatted_message_next_task (w : Welcome) (member : Member) (a : Answers)
    channel title message color view delete_after :
  (next_task (loop w)
   ≤ next_task (loop (send_formatted_message w channel title message member color
                        view delete_after a).1.1.1))%nat.
Proof.
  unfold send_formatted_message, create_task.
  repeat case_match; simplify_eq/=; lia.
Qed.

Lemma entries_ok_on_member_join (w : Welcome) (member : Member) (a : Answers) :
  entries_ok w → entries_ok (on_member_join w member a).1.
Proof.
  intros Hok.
  destruct (db_ready w) eqn:Hready; cycle 1.
  { unfold on_member_join. by rewrite Hready. }
  destruct (load_join (db w) member) as [out|channel title messages d] eqn:Hload.
  { unfold on_member_join. by rewrite Hready, Hload. }
  rewrite (on_member_join_ready _ _ _ _ _ _ _ Hready Hload). cbn [fst].
  set (message := choice messages (pick a)).
  destruct (render message member (format_other a)) as [text|] eqn:Hrender; cycle 1.
  { rewrite send_formatted_message_failed by by left. cbn [fst snd].
    by rewrite track_unchanged by by left. }
  destruct (send_raises a) eqn:Hsend.
  { rewrite send_formatted_message_failed by by right. cbn [fst snd].
    by rewrite track_unchanged by by left. }
  destruct (Z.lt_ge_cases 0 d) as [Hd|Hd].
  - rewrite (send_formatted_message_timed _ _ _ _ _ _ _ _ _ text) by done.
    cbn [fst snd]. intros g m msg task. rewrite pending_track by done.
    case_decide.
    + intros [= <- <-]. unfold track. destruct (0 <? d); simpl; eauto.
    + intros Hentry. destruct (Hok g m msg task Hentry) as (_ & t & -> & Ht).
      unfold track. destruct (0 <? d); simpl; eauto with lia.
  - rewrite (send_formatted_message_untimed _ _ _ _ _ _ _ _ _ text) by done.
    cbn [fst snd]. rewrite track_unchanged by by right.
    revert Hok. apply entries_ok_frame; simpl; auto.
Qed.

Lemma entries_ok_on_member_remove (w : Welcome) (member : Member) (a : Answers) :
  entries_ok w → entries_ok (on_member_remove w member a).1.
Proof.
  destruct (db_ready w) eqn:Hready; cycle 1.
  { unfold on_member_remove. by rewrite Hready. }
  rewrite on_member_remove_ready by done. cbn [fst].
  set (w1 := (delete_join_message w member a).1).
  destruct (delete_join_message_frame w member a) as (_ & Hr1 & _ & Hn1).
  destruct (leave_announcement_frame w1 member a) as (_ & Hr2 & Hreg & _).
  apply entries_ok_frame.
  - rewrite Hr2. fold w1 in Hr1. by rewrite Hr1.
  - fold w1 in Hn1. rewrite <-Hn1. unfold leave_announcement.
    destruct (load_leave (db w1) member) as [out|channel title messages d]; [done|].
    pose proof (send_formatted_message_next_task w1 member a channel title
                  (choice messages (pick a)) red None (Some d)).
    by destruct (send_formatted_message _ _ _ _ _ _ _ _ _) as [[[w2 out] sm] tk].
  - intros g m e. unfold pending at 1. rewrite Hreg.
    fold (pending w1 g m). unfold w1. rewrite delete_join_message_pending.
    by case_decide.
Qed.

Lemma entries_ok_run (w : Welcome) (op : Operation) :
  entries_ok w → entries_ok (run w op).
Proof.
  intros Hok. destruct op; cbn [run].
  - revert Hok. apply entries_ok_frame; simpl; auto.
  - by apply entries_ok_on_member_join.
  - by apply entries_ok_on_member_remove.
  - revert Hok. apply entries_ok_frame.
    + unfold delete_later, Message_delete. repeat case_match; simplify_eq/=; done.
    + unfold delete_later, Message_delete. repeat case_match; simplify_eq/=; done.
    + intros g m e. unfold pending. by rewrite delete_later_registry.
  - apply entries_ok_db_ready_only; [done|]. cbv zeta. by repeat case_match.
  - apply entries_ok_db_ready_only; [done|]. cbv zeta.
    repeat case_match; try done; by apply entries_ok_with_db.
  - apply entries_ok_db_ready_only; [done|]. cbv zeta.
    repeat case_match; try done; by apply entries_ok_with_db.
  - apply entries_ok_db_ready_only; [done|]. by apply entries_ok_with_db.
  - apply entries_ok_db_ready_only; [done|]. by apply entries_ok_with_db.
  - apply entries_ok_db_ready_only; [done|]. cbv zeta.
    repeat case_match; try done; by apply entries_ok_with_db.
  - apply entries_ok_db_ready_only; [done|]. cbv zeta.
    repeat case_match; try done; by apply entries_ok_with_db.
  - apply entries_ok_db_ready_only; [done|]. cbv zeta. by repeat case_match.
  - apply entries_ok_db_ready_only; [done|]. cbv zeta. by repeat case_match.
  - apply entries_ok_db_ready_only; [done|]. cbv zeta. intros _.
    pose proof (entries_ok_on_member_join w (target_of ctx member) a Hok).
    by destruct (on_member_join w (target_of ctx member) a).
  - apply entries_ok_db_ready_only; [done|]. cbv zeta. intros _.
    pose proof (entries_ok_on_member_remove w (target_of ctx member) a Hok).
    by destruct (on_member_remove w (target_of ctx member) a).
  - unfold callback. repeat case_match; try done; by apply entries_ok_with_db.
Qed.

Lemma reachable_foldl (w : Welcome) (ops : list Operation) :
  reachable w → reachable (foldl run w ops).
Proof.
  revert w. induction ops as [|op ops IH]; intros w Hw; [done|].
  simpl. apply IH. by constructor.
Qed.

(** In every reachable state the entries of the registry are as the
    statements about leaving and the timer take them to be. *)
Lemma reachable_entries_ok (w : Welcome) : reachable w → entries_ok w.
Proof.
  induction 1 as [d dc l|w op _ IH].
  - intros g m msg task Hentry. unfold pending in Hentry. simpl in Hentry.
    by rewrite lookup_empty in Hentry.
  - by apply entries_ok_run.
Qed.

(** * Further properties of the commands and the listeners *)

(** ** The leave settings command *)

(** X1: [settings] of the leave group called with at least one argument
    writes the four leave columns of the guild's row, from the argument
    or from what the column held (the declared default without a row),
    and leaves the four join columns, the rows of other guilds and the
    other tables as they were. *)
Theorem set_leave_config_partial_update (w : Welcome) (ctx : Interaction)
    (channel : option Z) (title : option string) (enable : option bool)
    (duration : option Z) :
  let g := guild_id (interaction_guild ctx) in
  let w' := (set_leave_config w ctx channel title enable duration).1 in
  let old := default default_row (welcome_config (db w) !! g) in
  db_ready w = true →
  ¬ (channel = None ∧ title = None ∧ enable = None ∧ duration = None) →
  ∃ r, welcome_config (db w') !! g = Some r
    ∧ leave_channel_id r = match channel with Some c => Some c | None => leave_channel_id old end
    ∧ leave_title r = match title with Some t => Some t | None => leave_title old end
    ∧ leave_enabled r
      = match enable with Some b => Some (if b then 1 else 0) | None => leave_enabled old end
    ∧ leave_duration r = match duration with Some d => Some d | None => leave_duration old end
    ∧ join_channel_id r = join_channel_id old
    ∧ join_title r = join_title old
    ∧ join_enabled r = join_enabled old
    ∧ join_duration r = join_duration old
    ∧ (∀ g', g' ≠ g → welcome_config (db w') !! g' = welcome_config (db w) !! g')
    ∧ welcome_join_messages (db w') = welcome_join_messages (db w)
    ∧ welcome_leave_messages (db w') = welcome_leave_messages (db w)
    ∧ welcome_greet_counts (db w') = welcome_greet_counts (db w).
Proof.
  intros g w' old Hready Hsome. subst w'. unfold set_leave_config, db_ready_only.
  rewrite Hready. fold g.
  assert (old = default default_row (welcome_config (db w) !! g)) as Hold by done.
  destruct (welcome_config (db w) !! g) as [r0|] eqn:Hrow; simpl in Hold; subst old;
    destruct channel, title, enable as [[]|], duration;
    try (exfalso; apply Hsome; done);
    (eexists; split; [apply lookup_insert_eq|]);
    simpl; repeat split; try done;
    intros g' Hg'; by apply lookup_insert_ne.
Qed.

Lemma set_leave_config_partial_update_witness :
  let w' := (set_leave_config Scenario.configured Scenario.admin
               None None (Some false) None).1 in
  ∃ r, welcome_config (db w') !! 1 = Some r
    ∧ leave_enabled r = Some 0 ∧ leave_channel_id r = Some 10
    ∧ join_enabled r = Some 1 ∧ join_duration r = Some 30.
Proof.
  intros w'.
  destruct (set_leave_config_partial_update Scenario.configured Scenario.admin
              None None (Some false) None eq_refl)
    as (r & Hr & Hchannel & _ & Henabled & _ & _ & _ & Hjoin & Hduration & _).
  { intros (_ & _ & Henable & _). discriminate Henable. }
  exists r. split; [exact Hr|].
  split; [exact Henabled|]. split; [exact Hchannel|].
  split; [exact Hjoin | exact Hduration].
Defined.

(** ** Before the store is ready *)

(** X2: while [db_ready] is false every slash command answers with the
    not-ready notice and nothing else, both listeners return at once, and
    none of them changes anything. *)
Theorem not_ready_does_nothing (w : Welcome) (op : Operation) :
  db_ready w = false →
  (is_command op = true →
   perform w op
   = (w, [log_client "Database is not ready yet. Please try again in a few seconds."]))
  ∧ (∀ member a, perform w (op_member_join member a) = (w, []))
  ∧ (∀ member a, perform w (op_member_remove member a) = (w, [])).
Proof.
  intros Hready. split; [|split].
  - destruct op; try discriminate; intros _; cbn [perform];
      unfold greet_count, set_join_config, set_leave_config, add_join_message,
        add_leave_message, remove_join_message, remove_leave_message,
        list_join_messages, list_leave_messages, test_join_message,
        test_leave_message, db_ready_only; by rewrite Hready.
  - intros member a. cbn [perform]. unfold on_member_join. by rewrite Hready.
  - intros member a. cbn [perform]. unfold on_member_remove. by rewrite Hready.
Qed.

Lemma not_ready_does_nothing_witness :
  perform Scenario.restarting
    (op_set_join_config Scenario.admin (Some 11) None None None)
  = (Scenario.restarting,
     [log_client "Database is not ready yet. Please try again in a few seconds."])
  ∧ perform Scenario.restarting (op_member_join Scenario.alice Scenario.fine)
    = (Scenario.restarting, []).
Proof.
  destruct (not_ready_does_nothing Scenario.restarting
              (op_set_join_config Scenario.admin (Some 11) None None None) eq_refl)
    as (Hcommand & Hjoin & _).
  split; [exact (Hcommand eq_refl) | apply Hjoin].
Defined.

(** ** One guild's commands and another guild's announcements *)

Lemma load_join_ext (d d' : Database) (member : Member) :
  let g := guild_id (guild member) in
  welcome_config d' !! g = welcome_config d !! g →
  messages_of g (welcome_join_messages d') = messages_of g (welcome_join_messages d) →
  load_join d' member = load_join d member.
Proof. intros g Hrow Hmessages. unfold load_join. fold g. by rewrite Hrow, Hmessages. Qed.

Lemma load_leave_ext (d d' : Database) (member : Member) :
  let g := guild_id (guild member) in
  welcome_config d' !! g = welcome_config d !! g →
  messages_of g (welcome_leave_messages d') = messages_of g (welcome_leave_messages d) →
  load_leave d' member = load_leave d member.
Proof. intros g Hrow Hmessages. unfold load_leave. fold g. by rewrite Hrow, Hmessages. Qed.

Lemma messages_of_app (g : Z) (table : list MessageRow) (row : MessageRow) :
  messages_of g (table ++ [row])
  = messages_of g table ++ (if decide (row_guild_id row = g) then [row_message row] else []).
Proof.
  unfold messages_of. rewrite filter_app, fmap_app. f_equal.
  rewrite filter_cons, filter_nil. by case_decide.
Qed.

Lemma messages_of_remove_other (g g0 id : Z) (table : list MessageRow) :
  g ≠ g0 →
  messages_of g (List.filter (λ r, negb (owned id g0 r)) table) = messages_of g table.
Proof.
  intros Hne. unfold messages_of. f_equal.
  induction table as [|r table IH]; [done|]. simpl.
  destruct (owned id g0 r) eqn:Howned; simpl.
  - rewrite IH. rewrite filter_cons_False; [done|].
    unfold owned in Howned. apply andb_true_iff in Howned as [_ Hg%Z.eqb_eq].
    congruence.
  - rewrite !filter_cons, IH. done.
Qed.

Lemma db_ready_only_db (w : Welcome) (body : Welcome * list Output) (P : Database → Prop) :
  P (db w) → P (db body.1) → P (db (db_ready_only w body).1).
Proof. unfold db_ready_only. by destruct (db_ready w). Qed.

(** What an operation leaves of the rows a listener reads for guild [g]. *)
Lemma run_rows (w : Welcome) (op : Operation) (g : Z) :
  op_guild op ≠ Some g →
  welcome_config (db (run w op)) !! g = welcome_config (db w) !! g
  ∧ messages_of g (welcome_join_messages (db (run w op)))
    = messages_of g (welcome_join_messages (db w))
  ∧ messages_of g (welcome_leave_messages (db (run w op)))
    = messages_of g (welcome_leave_messages (db w)).
Proof.
  intros Hop.
  set (P := λ d : Database,
         welcome_config d !! g = welcome_config (db w) !! g
         ∧ messages_of g (welcome_join_messages d)
           = messages_of g (welcome_join_messages (db w))
         ∧ messages_of g (welcome_leave_messages d)
           = messages_of g (welcome_leave_messages (db w))).
  change (P (db (run w op))).
  assert (P (db w)) as Hsame by done.
  assert (∀ ctx : Interaction,
            Some (guild_id (interaction_guild ctx)) ≠ Some g →
            guild_id (interaction_guild ctx) ≠ g) as Hguild by congruence.
  destruct op; cbn [run op_guild] in *;
    unfold greet_count, set_join_config, set_leave_config, add_join_message,
      add_leave_message, remove_join_message, remove_leave_message,
      list_join_messages, list_leave_messages, test_join_message,
      test_leave_message.
  - done.
  - by rewrite on_member_join_db.
  - by rewrite on_member_remove_db.
  - unfold delete_later, Message_delete. repeat case_match; simplify_eq/=; done.
  - apply db_ready_only_db; [done|]. cbv zeta. by repeat case_match.
  - apply Hguild in Hop. apply db_ready_only_db; [done|]. cbv zeta.
    repeat case_match; try done; (split; [by apply lookup_insert_ne | done]).
  - apply Hguild in Hop. apply db_ready_only_db; [done|]. cbv zeta.
    repeat case_match; try done; (split; [by apply lookup_insert_ne | done]).
  - apply Hguild in Hop. apply db_ready_only_db; [done|]. unfold P.
    cbn [fst db with_db welcome_config welcome_join_messages welcome_leave_messages].
    split; [done|]. split; [|done].
    rewrite messages_of_app. cbn [row_guild_id]. rewrite decide_False by done. apply app_nil_r.
  - apply Hguild in Hop. apply db_ready_only_db; [done|]. unfold P.
    cbn [fst db with_db welcome_config welcome_join_messages welcome_leave_messages].
    split; [done|]. split; [done|].
    rewrite messages_of_app. cbn [row_guild_id]. rewrite decide_False by done. apply app_nil_r.
  - apply Hguild in Hop. apply db_ready_only_db; [done|]. cbv zeta.
    case_match; [|done]. unfold P.
    cbn [fst db with_db welcome_config welcome_join_messages welcome_leave_messages].
    split; [done|]. split; [|done].
    by apply messages_of_remove_other.
  - apply Hguild in Hop. apply db_ready_only_db; [done|]. cbv zeta.
    case_match; [|done]. unfold P.
    cbn [fst db with_db welcome_config welcome_join_messages welcome_leave_messages].
    split; [done|]. split; [done|].
    by apply messages_of_remove_other.
  - apply db_ready_only_db; [done|]. cbv zeta. by repeat case_match.
  - apply db_ready_only_db; [done|]. cbv zeta. by repeat case_match.
  - apply db_ready_only_db; [done|]. cbv zeta.
    pose proof (on_member_join_db w (target_of ctx member) a) as Hdb.
    destruct (on_member_join w (target_of ctx member) a). simpl in *. by rewrite Hdb.
  - apply db_ready_only_db; [done|]. cbv zeta.
    pose proof (on_member_remove_db w (target_of ctx member) a) as Hdb.
    destruct (on_member_remove w (target_of ctx member) a). simpl in *. by rewrite Hdb.
  - unfold callback. repeat case_match; done.
Qed.

(** X3: what the two listeners read for a member (whether to announce,
    in which channel, which messages, for how long) changes only through
    a settings, add-message or remove-message command issued in the
    member's own guild: every other operation, and each of these commands
    issued in another guild, leaves it as it was. *)
Theorem guild_isolation (w : Welcome) (op : Operation) (member : Member) :
  op_guild op ≠ Some (guild_id (guild member)) →
  load_join (db (run w op)) member = load_join (db w) member
  ∧ load_leave (db (run w op)) member = load_leave (db w) member.
Proof.
  intros Hop. destruct (run_rows w op _ Hop) as (Hrow & Hjoin & Hleave).
  split; [by apply load_join_ext | by apply load_leave_ext].
Qed.

Lemma guild_isolation_witness :
  let other : Interaction :=
    {| user := Scenario.bob;
       interaction_guild := {| guild_id := 7; guild_name := "Other"; guild_channels := [] |} |} in
  let w' := run Scenario.configured (op_set_join_config other None None (Some false) None) in
  load_join (db w') Scenario.alice = Ready 10 (Some "Welcome") ["Hi {member}!"] 30.
Proof.
  intros other w'.
  destruct (guild_isolation Scenario.configured
              (op_set_join_config other None None (Some false) None) Scenario.alice)
    as [Hjoin _].
  { discriminate. }
  fold w' in Hjoin. rewrite Hjoin. reflexivity.
Defined.

(** ** Adding and removing messages *)

Lemma choice_last (messages : list string) (message : string) :
  choice (messages ++ [message]) (length messages) = message.
Proof.
  unfold choice. rewrite length_app. simpl.
  rewrite Nat.mod_small by lia.
  rewrite lookup_app_r by lia. by rewrite Nat.sub_diag.
Qed.

(** X4: with the store ready, [add-message] puts the text at the end of
    the messages of the guild, so that [random.choice] can draw it at the
    next join (or leave) in that guild, and answers with the success
    notice; the configuration rows and the greet counters are not
    touched. *)
Theorem add_message_appends (w : Welcome) (ctx : Interaction) (message : string) :
  let g := guild_id (interaction_guild ctx) in
  let j := add_join_message w ctx message in
  let l := add_leave_message w ctx message in
  db_ready w = true →
  (messages_of g (welcome_join_messages (db j.1))
   = messages_of g (welcome_join_messages (db w)) ++ [message]
   ∧ choice (messages_of g (welcome_join_messages (db j.1)))
       (length (messages_of g (welcome_join_messages (db w)))) = message
   ∧ j.2 = [log_success ("Join message added: " +:+ message)]
   ∧ welcome_leave_messages (db j.1) = welcome_leave_messages (db w)
   ∧ welcome_config (db j.1) = welcome_config (db w)
   ∧ welcome_greet_counts (db j.1) = welcome_greet_counts (db w))
  ∧ (messages_of g (welcome_leave_messages (db l.1))
     = messages_of g (welcome_leave_messages (db w)) ++ [message]
     ∧ choice (messages_of g (welcome_leave_messages (db l.1)))
         (length (messages_of g (welcome_leave_messages (db w)))) = message
     ∧ l.2 = [log_success ("Leave message added: " +:+ message)]
     ∧ welcome_join_messages (db l.1) = welcome_join_messages (db w)
     ∧ welcome_config (db l.1) = welcome_config (db w)
     ∧ welcome_greet_counts (db l.1) = welcome_greet_counts (db w)).
Proof.
  intros g j l Hready. subst j l.
  unfold add_join_message, add_leave_message, db_ready_only. rewrite Hready.
  cbn [fst snd db with_db welcome_join_messages welcome_leave_messages
       welcome_config welcome_greet_counts].
  rewrite !messages_of_app. cbn [row_guild_id row_message]. fold g.
  rewrite decide_True by done.
  repeat split; apply choice_last.
Qed.

Lemma add_message_appends_witness :
  let j := add_join_message Scenario.configured Scenario.admin "Welcome, {mention}" in
  messages_of 1 (welcome_join_messages (db j.1)) = ["Hi {member}!"; "Welcome, {mention}"]
  ∧ choice (messages_of 1 (welcome_join_messages (db j.1))) 1 = "Welcome, {mention}".
Proof.
  intros j.
  destruct (add_message_appends Scenario.configured Scenario.admin
              "Welcome, {mention}" eq_refl) as ((Hmessages & Hchoice & _) & _).
  split; [exact Hmessages | exact Hchoice].
Defined.

Lemma owned_spec (id g : Z) (r : MessageRow) :
  owned id g r = true ↔ row_id r = id ∧ row_guild_id r = g.
Proof. unfold owned. rewrite andb_true_iff, !Z.eqb_eq. done. Qed.

Lemma remove_rows (id g : Z) (table : list MessageRow) :
  let table' := List.filter (λ r, negb (owned id g r)) table in
  (∀ r, r ∈ table' ↔ r ∈ table ∧ ¬ (row_id r = id ∧ row_guild_id r = g))
  ∧ existsb (owned id g) table' = false.
Proof.
  intros table'. split.
  - intros r. subst table'. rewrite !list_elem_of_In, filter_In, negb_true_iff.
    rewrite <-owned_spec. destruct (owned id g r); naive_solver.
  - apply not_true_is_false. intros Hsome.
    apply existsb_exists in Hsome as (r & Hin & Howned).
    apply filter_In in Hin as [_ Hnot]. by rewrite Howned in Hnot.
Qed.

Lemma existsb_owned_false (id g : Z) (table : list MessageRow) :
  existsb (owned id g) table = false
  ↔ ∀ r, r ∈ table → ¬ (row_id r = id ∧ row_guild_id r = g).
Proof.
  split.
  - intros Hnone r Hin Howned%owned_spec.
    assert (existsb (owned id g) table = true) as Hsome
      by (apply existsb_exists; exists r; by rewrite <-list_elem_of_In).
    congruence.
  - intros Hnone. apply not_true_is_false. intros Hsome.
    apply existsb_exists in Hsome as (r & Hin & Howned).
    apply (Hnone r); [by apply list_elem_of_In | by apply owned_spec].
Qed.

(** X5: with the store ready, [remove-message] of the join group takes
    out of the table exactly the rows that carry the given id and belong
    to the guild of the interaction; a row of another guild stays even
    under that id.  When the guild has no such row the command answers
    with the failure notice and changes nothing, and that is what a
    second removal of the same id does.  The leave table, the
    configuration rows and the greet counters are never touched. *)
Theorem remove_join_message_spec (w : Welcome) (ctx : Interaction) (id : Z) :
  let g := guild_id (interaction_guild ctx) in
  let r := remove_join_message w ctx id in
  let failure := [log_failure ("No join message found with ID " +:+ pretty id +:+ ".")] in
  db_ready w = true →
  (∀ row, row ∈ welcome_join_messages (db r.1)
          ↔ row ∈ welcome_join_messages (db w)
            ∧ ¬ (row_id row = id ∧ row_guild_id row = g))
  ∧ ((∀ row, row ∈ welcome_join_messages (db w) →
             ¬ (row_id row = id ∧ row_guild_id row = g)) →
     r = (w, failure))
  ∧ remove_join_message r.1 ctx id = (r.1, failure)
  ∧ welcome_leave_messages (db r.1) = welcome_leave_messages (db w)
  ∧ welcome_config (db r.1) = welcome_config (db w)
  ∧ welcome_greet_counts (db r.1) = welcome_greet_counts (db w).
Proof.
  intros g r failure Hready. subst r failure.
  unfold remove_join_message, db_ready_only. rewrite Hready. fold g.
  destruct (remove_rows id g (welcome_join_messages (db w))) as [Hrows Hgone].
  destruct (existsb (owned id g) (welcome_join_messages (db w))) eqn:Hsome;
    cbn [fst snd db with_db welcome_join_messages welcome_leave_messages
         welcome_config welcome_greet_counts db_ready].
  - split; [exact Hrows|]. split.
    { intros Hnone. apply existsb_owned_false in Hnone. congruence. }
    split; [|done]. by rewrite Hready, Hgone.
  - pose proof (proj1 (existsb_owned_false _ _ _) Hsome) as Hnone.
    split; [naive_solver|]. split; [done|]. split; [|done].
    by rewrite Hready, Hsome.
Qed.

Lemma remove_join_message_spec_witness :
  let other : Interaction :=
    {| user := Scenario.bob;
       interaction_guild := {| guild_id := 7; guild_name := "Other"; guild_channels := [] |} |} in
  remove_join_message Scenario.configured other 1
  = (Scenario.configured, [log_failure "No join message found with ID 1."])
  ∧ welcome_join_messages
      (db (remove_join_message Scenario.configured Scenario.admin 1).1) = [].
Proof.
  intros other. split.
  - destruct (remove_join_message_spec Scenario.configured other 1 eq_refl)
      as (_ & Hnone & _).
    apply Hnone. intros row Hrow [_ Hguild].
    apply list_elem_of_singleton in Hrow. subst row. discriminate Hguild.
  - reflexivity.
Defined.

(** ** The ids of the message tables *)

Lemma table_ok_add (table : list MessageRow) (sequence g : Z) (message : string) :
  table_ok table sequence →
  table_ok (table ++ [{| row_id := sequence + 1; row_guild_id := g;
                         row_message := message |}]) (sequence + 1).
Proof.
  intros [Hnodup Hbound]. split.
  - rewrite fmap_app. apply NoDup_app. split; [done|].
    split; [|apply NoDup_singleton].
    intros id Hin ->%list_elem_of_singleton.
    apply list_elem_of_fmap in Hin as (r & Hid & Hr).
    rewrite Forall_forall in Hbound. specialize (Hbound r Hr). simpl in *. lia.
  - apply Forall_app. split.
    + eapply Forall_impl; [exact Hbound|]. simpl. intros; lia.
    + apply Forall_singleton. simpl. lia.
Qed.

Lemma table_ok_filter (table : list MessageRow) (sequence : Z)
    (f : MessageRow → bool) :
  table_ok table sequence → table_ok (List.filter f table) sequence.
Proof.
  intros [Hnodup Hbound]. split.
  - induction table as [|r table IH]; [done|]. simpl in *.
    apply NoDup_cons in Hnodup as [Hnew Hnodup].
    apply Forall_cons in Hbound as [_ Hbound].
    destruct (f r); simpl; [|by apply IH].
    apply NoDup_cons. split; [|by apply IH].
    intros Hin. apply Hnew.
    apply list_elem_of_fmap in Hin as (r' & -> & Hr').
    apply list_elem_of_fmap. exists r'. split; [done|].
    apply list_elem_of_In. apply list_elem_of_In, filter_In in Hr'. tauto.
  - rewrite Forall_forall in *. intros r Hr. apply Hbound.
    apply list_elem_of_In. apply list_elem_of_In, filter_In in Hr. tauto.
Qed.

Lemma ids_ok_run (w : Welcome) (op : Operation) :
  ids_ok (db w) →
  ids_ok (db (run w op))
  ∧ join_sequence (db w) ≤ join_sequence (db (run w op))
  ∧ leave_sequence (db w) ≤ leave_sequence (db (run w op)).
Proof.
  intros Hok.
  set (P := λ d : Database,
         ids_ok d ∧ join_sequence (db w) ≤ join_sequence d
         ∧ leave_sequence (db w) ≤ leave_sequence d).
  change (P (db (run w op))).
  assert (P (db w)) as Hsame by (unfold P; split; [done | lia]).
  destruct Hok as [Hjoin Hleave].
  destruct op; cbn [run];
    unfold greet_count, set_join_config, set_leave_config, add_join_message,
      add_leave_message, remove_join_message, remove_leave_message,
      list_join_messages, list_leave_messages, test_join_message,
      test_leave_message.
  - done.
  - by rewrite on_member_join_db.
  - by rewrite on_member_remove_db.
  - unfold delete_later, Message_delete. repeat case_match; simplify_eq/=; done.
  - apply db_ready_only_db; [done|]. cbv zeta. by repeat case_match.
  - apply db_ready_only_db; [done|]. cbv zeta. by repeat case_match.
  - apply db_ready_only_db; [done|]. cbv zeta. by repeat case_match.
  - apply db_ready_only_db; [done|]. unfold P, ids_ok. simpl.
    split; [split; [by apply table_ok_add | done] | lia].
  - apply db_ready_only_db; [done|]. unfold P, ids_ok. simpl.
    split; [split; [done | by apply table_ok_add] | lia].
  - apply db_ready_only_db; [done|]. cbv zeta. case_match; [|done].
    unfold P, ids_ok. simpl. split; [split; [by apply table_ok_filter | done] | lia].
  - apply db_ready_only_db; [done|]. cbv zeta. case_match; [|done].
    unfold P, ids_ok. simpl. split; [split; [done | by apply table_ok_filter] | lia].
  - apply db_ready_only_db; [done|]. cbv zeta. by repeat case_match.
  - apply db_ready_only_db; [done|]. cbv zeta. by repeat case_match.
  - apply db_ready_only_db; [done|]. cbv zeta.
    pose proof (on_member_join_db w (target_of ctx member) a) as Hdb.
    destruct (on_member_join w (target_of ctx member) a). simpl in *. by rewrite Hdb.
  - apply db_ready_only_db; [done|]. cbv zeta.
    pose proof (on_member_remove_db w (target_of ctx member) a) as Hdb.
    destruct (on_member_remove w (target_of ctx member) a). simpl in *. by rewrite Hdb.
  - unfold callback. repeat case_match; done.
Qed.

(** X6: if in the store the cog starts from the ids of each message
    table are pairwise different and not above the table's
    [AUTOINCREMENT] counter, this stays so through every sequence of
    operations, and the counters never go down: an id shown by
    [list-message] names one row, and the id of a removed message is not
    given to a later one. *)
Theorem message_ids_stay_unique (w : Welcome) (ops : list Operation) :
  ids_ok (db w) →
  ids_ok (db (foldl run w ops))
  ∧ join_sequence (db w) ≤ join_sequence (db (foldl run w ops))
  ∧ leave_sequence (db w) ≤ leave_sequence (db (foldl run w ops)).
Proof.
  revert w. induction ops as [|op ops IH]; intros w Hok; simpl.
  - split; [done | lia].
  - destruct (ids_ok_run w op Hok) as (Hok1 & Hj & Hl).
    destruct (IH _ Hok1) as (Hok2 & Hj2 & Hl2).
    split; [done | lia].
Qed.

Lemma message_ids_stay_unique_witness :
  let ops := [op_add_join_message Scenario.admin "a";
              op_remove_join_message Scenario.admin 2;
              op_add_join_message Scenario.admin "b"] in
  ids_ok (db (foldl run Scenario.configured ops))
  ∧ row_id <$> welcome_join_messages (db (foldl run Scenario.configured ops)) = [1; 3].
Proof.
  intros ops.
  destruct (message_ids_stay_unique Scenario.configured ops) as (Hok & _).
  { repeat split; vm_compute; repeat constructor; set_solver. }
  split; [exact Hok | reflexivity].
Defined.

Lemma filter_none (f : MessageRow → bool) (table : list MessageRow) :
  (∀ r, r ∈ table → f r = true) → List.filter f table = table.
Proof.
  induction table as [|r table IH]; intros Hall; [done|]. simpl.
  rewrite (Hall r) by apply list_elem_of_here.
  f_equal. apply IH. intros r' Hr'. apply Hall. by apply list_elem_of_further.
Qed.

(** X7: with the store ready and the ids of the join table not above its
    counter, removing the message that [add-message] has just added, under
    the id it was given, succeeds and gives back the table as it was
    before the addition; the counter keeps the id as used. *)
Theorem add_then_remove_join_message (w : Welcome) (ctx : Interaction)
    (message : string) :
  let id := join_sequence (db w) + 1 in
  let w1 := (add_join_message w ctx message).1 in
  let r := remove_join_message w1 ctx id in
  db_ready w = true →
  table_ok (welcome_join_messages (db w)) (join_sequence (db w)) →
  welcome_join_messages (db r.1) = welcome_join_messages (db w)
  ∧ r.2 = [log_success ("Join message with ID " +:+ pretty id +:+ " removed.")]
  ∧ join_sequence (db r.1) = id.
Proof.
  intros id w1 r Hready [_ Hbound]. subst r w1.
  unfold add_join_message, remove_join_message, db_ready_only. rewrite Hready.
  cbn [fst snd db with_db db_ready welcome_join_messages join_sequence].
  rewrite Hready. fold id.
  set (g := guild_id (interaction_guild ctx)).
  set (row := {| row_id := id; row_guild_id := g; row_message := message |}).
  assert (owned id g row = true) as Hrow by (apply owned_spec; done).
  assert (existsb (owned id g) (welcome_join_messages (db w) ++ [row]) = true) as ->.
  { rewrite existsb_app. simpl. rewrite Hrow. by rewrite orb_true_r. }
  cbn [fst snd db with_db welcome_join_messages join_sequence].
  split; [|done].
  rewrite List.filter_app. simpl. rewrite Hrow. simpl. rewrite app_nil_r.
  apply filter_none. intros r Hr. apply negb_true_iff, not_true_is_false.
  intros [Hid _]%owned_spec.
  rewrite Forall_forall in Hbound. specialize (Hbound r Hr). simpl in *. lia.
Qed.

Lemma add_then_remove_join_message_witness :
  let w1 := (add_join_message Scenario.configured Scenario.admin "a").1 in
  welcome_join_messages (db (remove_join_message w1 Scenario.admin 2).1)
  = welcome_join_messages (db Scenario.configured)
  ∧ join_sequence (db (remove_join_message w1 Scenario.admin 2).1) = 2.
Proof.
  intros w1.
  destruct (add_then_remove_join_message Scenario.configured Scenario.admin "a" eq_refl)
    as (Htable & _ & Hsequence).
  { split; vm_compute; repeat constructor; set_solver. }
  split; [exact Htable | exact Hsequence].
Defined.

(** ** What an announcement is made of *)

Lemma choice_elem_of (messages : list string) (pick : nat) :
  messages ≠ [] → choice messages pick ∈ messages.
Proof.
  intros Hne. unfold choice.
  assert (length messages ≠ 0)%nat as Hlen by by destruct messages.
  pose proof (Nat.mod_upper_bound pick (length messages) Hlen) as Hlt.
  destruct (lookup_lt_is_Some_2 messages _ Hlt) as [m Hm].
  rewrite Hm. simpl. by eapply list_elem_of_lookup_2.
Qed.

Lemma messages_of_elem_of (g : Z) (table : list MessageRow) (template : string) :
  template ∈ messages_of g table
  ↔ ∃ r, r ∈ table ∧ row_guild_id r = g ∧ row_message r = template.
Proof.
  unfold messages_of. rewrite list_elem_of_fmap. split.
  - intros (r & -> & Hr). apply list_elem_of_filter in Hr as [Hg Hr]. eauto.
  - intros (r & Hr & Hg & <-). exists r. split; [done|].
    by apply list_elem_of_filter.
Qed.

Lemma load_join_ready (d : Database) (member : Member) channel title messages duration :
  load_join d member = Ready channel title messages duration →
  ∃ row e,
    welcome_config d !! guild_id (guild member) = Some row
    ∧ join_enabled row = Some e ∧ e ≠ 0
    ∧ join_channel_id row = Some channel
    ∧ channel ∈ guild_channels (guild member)
    ∧ messages = messages_of (guild_id (guild member)) (welcome_join_messages d)
    ∧ messages ≠ []
    ∧ duration = default 0 (join_duration row).
Proof.
  unfold load_join, get_channel, column.
  destruct (welcome_config d !! guild_id (guild member)) as [row|]; [|done].
  destruct (join_enabled row) as [e|] eqn:He; [|done]. simpl.
  destruct (Z.eqb_spec e 0); [done|].
  destruct (join_channel_id row) as [c|] eqn:Hc; [|done].
  case_bool_decide; [|done].
  destruct (messages_of _ _) eqn:Hmessages; [done|].
  intros [= <- <- <- <-]. by exists row, e.
Qed.

Lemma load_leave_ready (d : Database) (member : Member) channel title messages duration :
  load_leave d member = Ready channel title messages duration →
  ∃ row e,
    welcome_config d !! guild_id (guild member) = Some row
    ∧ leave_enabled row = Some e ∧ e ≠ 0
    ∧ leave_channel_id row = Some channel
    ∧ channel ∈ guild_channels (guild member)
    ∧ messages = messages_of (guild_id (guild member)) (welcome_leave_messages d)
    ∧ messages ≠ []
    ∧ duration = default 0 (leave_duration row).
Proof.
  unfold load_leave, get_channel, column.
  destruct (welcome_config d !! guild_id (guild member)) as [row|]; [|done].
  destruct (leave_enabled row) as [e|] eqn:He; [|done]. simpl.
  destruct (Z.eqb_spec e 0); [done|].
  destruct (leave_channel_id row) as [c|] eqn:Hc; [|done].
  case_bool_decide; [|done].
  destruct (messages_of _ _) eqn:Hmessages; [done|].
  intros [= <- <- <- <-]. by exists row, e.
Qed.

Lemma load_join_stop (d : Database) (member : Member) out msg text view :
  load_join d member = Stop out → channel_send msg text view ∉ out.
Proof. unfold load_join. repeat case_match; intros; simplify_eq; set_solver. Qed.

Lemma load_leave_stop (d : Database) (member : Member) out msg text view :
  load_leave d member = Stop out → channel_send msg text view ∉ out.
Proof. unfold load_leave. repeat case_match; intros; simplify_eq; set_solver. Qed.

(** What a send that let a [channel_send] out was given and got. *)
Lemma send_formatted_message_sent (w : Welcome) (member : Member) (a : Answers)
    channel title message color view delete_after msg text view' :
  channel_send msg text view'
    ∈ (send_formatted_message w channel title message member color view
         delete_after a).1.1.2 →
  msg = {| message_id := next_message_id (discord w); message_channel := channel |}
  ∧ render message member (format_other a) = Some text
  ∧ send_raises a = false
  ∧ view' = view.
Proof.
  unfold send_formatted_message.
  destruct (render message member (format_other a)) as [t|];
    [|cbn; set_solver].
  destruct (send_raises a); [cbn; set_solver|].
  intros Hin.
  assert (channel_send msg text view'
          ∈ [channel_send {| message_id := next_message_id (discord w);
                             message_channel := channel |} t view]) as Hone.
  { destruct delete_after as [delay|]; [destruct (0 <? delay)|]; exact Hin. }
  apply list_elem_of_singleton in Hone. by injection Hone as -> -> ->.
Qed.

(** X8: whenever [on_member_join] sends an announcement, the store is
    ready, the guild has a row with join enabled, the announcement goes to
    the join channel of that row, which is a channel of the member's
    guild, its text is the rendering of one of the join messages stored
    for that same guild, and it carries a fresh greet button for the
    member. *)
Theorem on_member_join_sends (w : Welcome) (member : Member) (a : Answers)
    (msg : Message) (text : string) (view : option WelcomeButton) :
  let g := guild_id (guild member) in
  channel_send msg text view ∈ (on_member_join w member a).2 →
  db_ready w = true
  ∧ ∃ row e template,
      welcome_config (db w) !! g = Some row
      ∧ join_enabled row = Some e ∧ e ≠ 0
      ∧ join_channel_id row = Some (message_channel msg)
      ∧ message_channel msg ∈ guild_channels (guild member)
      ∧ (∃ r, r ∈ welcome_join_messages (db w)
              ∧ row_guild_id r = g ∧ row_message r = template)
      ∧ render template member (format_other a) = Some text
      ∧ view = Some (WelcomeButton_init member).
Proof.
  intros g Hsent.
  destruct (db_ready w) eqn:Hready; cycle 1.
  { unfold on_member_join in Hsent. rewrite Hready in Hsent. set_solver. }
  split; [done|].
  destruct (load_join (db w) member) as [out|channel title messages d] eqn:Hload.
  { unfold on_member_join in Hsent. rewrite Hready, Hload in Hsent.
    by apply (load_join_stop _ _ _ _ _ _ Hload) in Hsent. }
  rewrite (on_member_join_ready _ _ _ _ _ _ _ Hready Hload) in Hsent.
  cbn [snd] in Hsent.
  apply send_formatted_message_sent in Hsent as (-> & Hrender & _ & ->).
  apply load_join_ready in Hload
    as (row & e & Hrow & He & Hne & Hchannel & Hin & -> & Hsome & _).
  exists row, e, (choice (messages_of g (welcome_join_messages (db w))) (pick a)).
  repeat split; try done.
  apply messages_of_elem_of. by apply choice_elem_of.
Qed.

Lemma on_member_join_sends_witness :
  db_ready Scenario.configured = true
  ∧ ∃ row e template,
      welcome_config (db Scenario.configured) !! 1 = Some row
      ∧ join_enabled row = Some e ∧ e ≠ 0
      ∧ join_channel_id row = Some 10
      ∧ 10 ∈ [10; 11]
      ∧ (∃ r, r ∈ welcome_join_messages (db Scenario.configured)
              ∧ row_guild_id r = 1 ∧ row_message r = template)
      ∧ render template Scenario.alice None = Some "Hi Alice!"
      ∧ Some (WelcomeButton_init Scenario.alice) = Some (WelcomeButton_init Scenario.alice).
Proof.
  apply (on_member_join_sends Scenario.configured Scenario.alice Scenario.fine
           {| message_id := 100; message_channel := 10 |} "Hi Alice!"
           (Some (WelcomeButton_init Scenario.alice))).
  vm_compute. apply list_elem_of_here.
Defined.

(** X9: whenever [on_member_remove] sends an announcement, the store is
    ready, the guild has a row with leave enabled, the announcement goes
    to the leave channel of that row, which is a channel of the member's
    guild, its text is the rendering of one of the leave messages stored
    for that same guild, and it carries no button. *)
Theorem on_member_remove_sends (w : Welcome) (member : Member) (a : Answers)
    (msg : Message) (text : string) (view : option WelcomeButton) :
  let g := guild_id (guild member) in
  channel_send msg text view ∈ (on_member_remove w member a).2 →
  db_ready w = true
  ∧ ∃ row e template,
      welcome_config (db w) !! g = Some row
      ∧ leave_enabled row = Some e ∧ e ≠ 0
      ∧ leave_channel_id row = Some (message_channel msg)
      ∧ message_channel msg ∈ guild_channels (guild member)
      ∧ (∃ r, r ∈ welcome_leave_messages (db w)
              ∧ row_guild_id r = g ∧ row_message r = template)
      ∧ render template member (format_other a) = Some text
      ∧ view = None.
Proof.
  intros g Hsent.
  destruct (db_ready w) eqn:Hready; cycle 1.
  { unfold on_member_remove in Hsent. rewrite Hready in Hsent. set_solver. }
  split; [done|].
  rewrite on_member_remove_ready in Hsent by done. cbn [snd] in Hsent.
  destruct (delete_join_message_frame w member a) as (Hdb & _).
  set (w1 := (delete_join_message w member a).1) in *.
  apply elem_of_app in Hsent as [Hsent|Hsent].
  { exfalso. revert Hsent. unfold delete_join_message, Message_delete.
    repeat case_match; simplify_eq/=; set_solver. }
  unfold leave_announcement in Hsent. rewrite Hdb in Hsent.
  destruct (load_leave (db w) member) as [out|channel title messages d] eqn:Hload.
  { by apply (load_leave_stop _ _ _ _ _ _ Hload) in Hsent. }
  assert (channel_send msg text view
          ∈ (send_formatted_message w1 channel title (choice messages (pick a))
               member red None (Some d) a).1.1.2) as Hsend.
  { by destruct (send_formatted_message _ _ _ _ _ _ _ _ _) as [[[w2 out] sm] tk]. }
  apply send_formatted_message_sent in Hsend as (-> & Hrender & _ & ->).
  apply load_leave_ready in Hload
    as (row & e & Hrow & He & Hne & Hchannel & Hin & -> & Hsome & _).
  exists row, e, (choice (messages_of g (welcome_leave_messages (db w))) (pick a)).
  repeat split; try done.
  apply messages_of_elem_of. by apply choice_elem_of.
Qed.

Lemma on_member_remove_sends_witness :
  ∃ row e template,
    welcome_config (db Scenario.joined) !! 1 = Some row
    ∧ leave_enabled row = Some e ∧ e ≠ 0
    ∧ leave_channel_id row = Some 10
    ∧ 10 ∈ [10; 11]
    ∧ (∃ r, r ∈ welcome_leave_messages (db Scenario.joined)
            ∧ row_guild_id r = 1 ∧ row_message r = template)
    ∧ render template Scenario.alice None = Some "Bye Alice"
    ∧ (None : option WelcomeButton) = None.
Proof.
  apply (on_member_remove_sends Scenario.joined Scenario.alice Scenario.fine
           {| message_id := 101; message_channel := 10 |} "Bye Alice" None).
  vm_compute. apply list_elem_of_here.
Defined.

(** ** Settings and the next join *)

Lemma set_join_config_row (w : Welcome) (ctx : Interaction)
    (channel : option Z) (title : option string) (enable : option bool)
    (duration : option Z) :
  db_ready w = true →
  ¬ (channel = None ∧ title = None ∧ enable = None ∧ duration = None) →
  let g := guild_id (interaction_guild ctx) in
  let old := default default_row (welcome_config (db w) !! g) in
  let w' := (set_join_config w ctx channel title enable duration).1 in
  db_ready w' = true
  ∧ welcome_join_messages (db w') = welcome_join_messages (db w)
  ∧ welcome_config (db w') !! g
    = Some (set_join_columns old
              (or_old channel (join_channel_id old))
              (or_old title (join_title old))
              (or_old (stored <$> enable) (join_enabled old))
              (or_old duration (join_duration old))).
Proof.
  intros Hready Hsome g old w'. subst w' old.
  unfold set_join_config, db_ready_only. rewrite Hready. fold g.
  destruct (welcome_config (db w) !! g) as [r0|] eqn:Hrow;
    destruct channel, title, enable, duration;
    try (exfalso; apply Hsome; done);
    (split; [exact Hready|]); (split; [reflexivity|]);
    apply lookup_insert_eq.
Qed.

(** X10: with the store ready, for a member of the guild the command is
    issued in: after [settings] with [enable] false the join listener
    does nothing at all for that member, whatever else is configured;
    after [settings] with a channel of the guild, [enable] true and a
    duration, it announces in that channel with that duration as soon as
    the guild has a join message.  A guild that has no configuration row
    gets no announcement and no warning. *)
Theorem join_settings_take_effect (w : Welcome) (ctx : Interaction)
    (member : Member) (a : Answers) :
  let g := guild_id (guild member) in
  db_ready w = true →
  g = guild_id (interaction_guild ctx) →
  (∀ channel title duration,
     let w' := (set_join_config w ctx channel title (Some false) duration).1 in
     on_member_join w' member a = (w', []))
  ∧ (∀ c title d,
       c ∈ guild_channels (guild member) →
       messages_of g (welcome_join_messages (db w)) ≠ [] →
       let w' := (set_join_config w ctx (Some c) title (Some true) (Some d)).1 in
       ∃ t, load_join (db w') member
            = Ready c t (messages_of g (welcome_join_messages (db w))) d)
  ∧ (welcome_config (db w) !! g = None → on_member_join w member a = (w, [])).
Proof.
  intros g Hready Hg. split; [|split].
  - intros channel title duration w'.
    destruct (set_join_config_row w ctx channel title (Some false) duration Hready)
      as (Hready' & _ & Hrow); [by intros (_ & _ & ? & _)|].
    fold w' in Hready', Hrow. rewrite <-Hg in Hrow.
    unfold on_member_join, load_join. fold g. rewrite Hready', Hrow. reflexivity.
  - intros c title d Hc Hmessages w'.
    destruct (set_join_config_row w ctx (Some c) title (Some true) (Some d) Hready)
      as (_ & Htable & Hrow); [by intros (? & _)|].
    fold w' in Htable, Hrow. rewrite <-Hg in Hrow.
    unfold load_join, get_channel. fold g. rewrite Hrow, Htable. simpl.
    rewrite bool_decide_eq_true_2 by done.
    destruct (messages_of g (welcome_join_messages (db w))); [done|]. by eexists.
  - intros Hnone. unfold on_member_join, load_join. fold g.
    by rewrite Hready, Hnone.
Qed.

Lemma join_settings_take_effect_witness :
  let w' := (set_join_config Scenario.configured Scenario.admin
               None None (Some false) None).1 in
  on_member_join w' Scenario.alice Scenario.fine = (w', [])
  ∧ ∃ t, load_join
           (db (set_join_config Scenario.configured Scenario.admin
                  (Some 11) None (Some true) (Some 5)).1) Scenario.alice
         = Ready 11 t ["Hi {member}!"] 5.
Proof.
  intros w'.
  destruct (join_settings_take_effect Scenario.configured Scenario.admin
              Scenario.alice Scenario.fine eq_refl eq_refl) as (Hoff & Hon & _).
  split; [apply Hoff|].
  apply (Hon 11 None 5); [|discriminate].
  vm_compute. apply list_elem_of_further, list_elem_of_here.
Defined.

(** ** The timer task *)

(** X11: a [delete_later] task that has not run yet computes its
    deadline when it runs.  If the deadline is a date of the calendar it
    makes one delete call for its message and ends; unless the call is
    refused the message is gone from the channel afterwards, whether the
    task deleted it or it was gone already; an error is logged unless the
    task deleted it.  If the deadline overflows it logs the error, makes
    no delete call and ends.  Either way the store,
    the registry and the other tasks are untouched; run a second time the
    task does nothing, and a task cancelled before its time does nothing
    either. *)
Theorem delete_later_once (w : Welcome) (t : nat) (msg : Message) (delay now : Z)
    (refused : bool) :
  tasks (loop w) !! t = Some (Sleeping msg delay) →
  let r := delete_later w t now refused in
  let w1 := r.1 in
  (deadline_overflows now delay = false →
     delete_log (discord w1) = delete_log (discord w) ++ [message_id msg]
     ∧ (refused = false →
        channel_messages (discord w1)
        = delete (message_id msg) (channel_messages (discord w))
        ∧ r.2 = match channel_messages (discord w) !! message_id msg with
                | Some _ => []
                | None => [log_error "Failed to auto-delete message: "]
                end)
     ∧ (refused = true →
        channel_messages (discord w1) = channel_messages (discord w)
        ∧ r.2 = [log_error "Failed to auto-delete message: "]))
  ∧ (deadline_overflows now delay = true →
     discord w1 = discord w
     ∧ r.2 = [log_error "Failed to auto-delete message: "])
  ∧ tasks (loop w1) = <[t := Finished]> (tasks (loop w))
  ∧ db w1 = db w
  ∧ _active_join_messages w1 = _active_join_messages w
  ∧ (∀ now' again, delete_later w1 t now' again = (w1, []))
  ∧ (∀ now' again, delete_later (with_loop w (cancel (loop w) t)) t now' again
                   = (with_loop w (cancel (loop w) t), [])).
Proof.
  intros Htask r w1.
  destruct (delete_later_sleeping w t msg delay now refused Htask)
    as (Hreg & Hdb & _ & Hlog & Htasks & _).
  fold r w1 in Hreg, Hdb, Hlog, Htasks.
  split; [|split; [|split; [done|split; [done|split; [done|split]]]]].
  - intros Hin. rewrite Hin in Hlog. split; [done|].
    subst w1 r. unfold delete_later, Message_delete. rewrite Htask, Hin.
    split; intros ->.
    + destruct (channel_messages (discord w) !! message_id msg) eqn:Hlive;
        simpl; (split; [|done]); [done | by rewrite delete_id].
    + done.
  - intros Hout. subst w1 r. unfold delete_later. by rewrite Htask, Hout.
  - intros now' again. unfold delete_later at 1.
    by rewrite Htasks, lookup_insert_eq.
  - intros now' again. unfold delete_later. cbn [loop with_loop].
    by rewrite cancel_lookup, Htask.
Qed.

Lemma delete_later_once_witness :
  let w1 := (delete_later Scenario.joined 0 Scenario.today false).1 in
  let r2 := delete_later Scenario.joined_for_ages 0 Scenario.today false in
  (delete_log (discord w1) = [100]
   ∧ channel_messages (discord w1) !! 100 = None
   ∧ delete_later w1 0 Scenario.today false = (w1, []))
  ∧ (discord r2.1 = discord Scenario.joined_for_ages
     ∧ r2.2 = [log_error "Failed to auto-delete message: "]
     ∧ tasks (loop r2.1) !! 0%nat = Some Finished).
Proof.
  intros w1 r2. split.
  - destruct (delete_later_once Scenario.joined 0
                {| message_id := 100; message_channel := 10 |} 30 Scenario.today
                false eq_refl)
      as (Hin & _ & _ & _ & _ & Hagain & _).
    destruct (Hin eq_refl) as (Hlog & Hgone & _).
    split; [exact Hlog|]. split; [|apply Hagain].
    fold w1 in Hgone. destruct (Hgone eq_refl) as [-> _]. apply lookup_delete_eq.
  - destruct (delete_later_once Scenario.joined_for_ages 0
                {| message_id := 100; message_channel := 10 |} 1000000000000
                Scenario.today false eq_refl)
      as (_ & Hout & Htasks & _).
    destruct (Hout eq_refl) as (Hdiscord & Hlogged).
    split; [exact Hdiscord|]. split; [exact Hlogged|].
    fold r2 in Htasks. rewrite Htasks. apply lookup_insert_eq.
Defined.

(** ** A press and the [welcome-count] command *)

(** X12: with the store ready, a press by a member who is neither the
    greeted member nor a greeter yet is taken: the presser's id goes to
    the end of the greeters, the message is edited and [on_greeting] is
    raised for the presser and the greeted member, and the presser's
    stored counter goes up by one.  The [welcome-count] command the
    presser then runs reports the new count, [member] in the singular for
    a first greeting and in the plural after that. *)
Theorem press_then_welcome_count (w : Welcome) (self : WelcomeButton)
    (interaction : Interaction) :
  let u := member_id (user interaction) in
  let g := guild_id (interaction_guild interaction) in
  let n := get_greet_count (db w) g u in
  db_ready w = true →
  u ≠ member_id (button_member self) →
  u ∉ greeters self →
  0 ≤ n →
  let r := callback w self interaction in
  greeters r.1.2 = greeters self ++ [u]
  ∧ r.2 = [edit_message r.1.2; on_greeting u (button_member self)]
  ∧ get_greet_count (db r.1.1) g u = n + 1
  ∧ greet_count r.1.1 interaction None
    = (r.1.1,
       [log_client ("You have welcomed " +:+ pretty (n + 1) +:+ " member" +:+
                    (if 0 <? n then "s" else "") +:+ " in this server.")]).
Proof.
  intros u g n Hready Hother Hnew Hn r.
  assert (r = (with_db w (increment_greet_count (db w) g u),
               {| label := "👋 Welcomed (" +:+ pretty (length (greeters self ++ [u])) +:+ ")";
                  button_member := button_member self;
                  greeters := greeters self ++ [u] |},
               [edit_message
                  {| label := "👋 Welcomed (" +:+ pretty (length (greeters self ++ [u])) +:+ ")";
                     button_member := button_member self;
                     greeters := greeters self ++ [u] |};
                on_greeting u (button_member self)])) as ->.
  { subst r. unfold callback. fold u g.
    destruct (Z.eqb_spec u (member_id (button_member self))); [done|].
    by rewrite bool_decide_eq_false_2. }
  cbn [fst snd].
  assert (get_greet_count (db (with_db w (increment_greet_count (db w) g u))) g u
          = n + 1) as Hcount.
  { cbn [db with_db]. rewrite get_greet_count_increment. by rewrite decide_True. }
  split; [done|]. split; [done|]. split; [done|].
  unfold greet_count, db_ready_only, target_of. cbn [db_ready with_db default].
  rewrite Hready. fold u g. rewrite Hcount, Z.eqb_refl.
  destruct (Z.leb_spec (n + 1) 0); [lia|].
  replace (1 <? n + 1) with (0 <? n); [done|].
  destruct (Z.ltb_spec 0 n), (Z.ltb_spec 1 (n + 1)); lia || done.
Qed.

Lemma press_then_welcome_count_witness :
  let r := callback Scenario.configured (WelcomeButton_init Scenario.alice) Scenario.admin in
  greeters r.1.2 = [3]
  ∧ greet_count r.1.1 Scenario.admin None
    = (r.1.1, [log_client "You have welcomed 1 member in this server."]).
Proof.
  intros r.
  destruct (press_then_welcome_count Scenario.configured
              (WelcomeButton_init Scenario.alice) Scenario.admin eq_refl)
    as (Hgreeters & _ & _ & Hcommand).
  - discriminate.
  - apply not_elem_of_nil.
  - vm_compute. discriminate.
  - split; [exact Hgreeters | exact Hcommand].
Defined.

(** ** The leave test and a pending join announcement *)

(** X13: with the store ready, the [test] command of the leave group run
    for a member whose join announcement is still in the registry does
    what the member leaving does to it: the entry is removed and a delete
    call is made for the join announcement; the command then ends with
    its notice. *)
Theorem test_leave_message_drops_entry (w : Welcome) (ctx : Interaction)
    (member : Member) (a : Answers) (msg : Message) (task : option nat) :
  let g := guild_id (guild member) in
  let m := member_id member in
  db_ready w = true →
  pending w g m = Some (msg, task) →
  let r := test_leave_message w ctx (Some member) a in
  pending r.1 g m = None
  ∧ delete_log (discord r.1) = delete_log (discord w) ++ [message_id msg]
  ∧ last r.2
    = Some (log_client ("Testing leave message for member " +:+ mention member +:+ ".")).
Proof.
  intros g m Hready Hentry r. subst r.
  unfold test_leave_message, db_ready_only, target_of. rewrite Hready.
  cbn [default].
  rewrite on_member_remove_ready by done.
  destruct (delete_join_message_entry w member a msg task Hentry)
    as (Hpending & Hlog & _).
  destruct (leave_announcement_frame (delete_join_message w member a).1 member a)
    as (_ & _ & Hregistry & Hlog2).
  cbv beta iota zeta. cbn [fst snd]. change (id member) with member.
  split; [|split].
  - unfold pending. rewrite Hregistry.
    fold (pending (delete_join_message w member a).1 g m).
    rewrite Hpending. by rewrite decide_True.
  - by rewrite Hlog2.
  - apply last_snoc.
Qed.

Lemma test_leave_message_drops_entry_witness :
  let r := test_leave_message Scenario.joined Scenario.admin (Some Scenario.alice)
             Scenario.fine in
  pending r.1 1 2 = None ∧ delete_log (discord r.1) = [100].
Proof.
  intros r.
  destruct (test_leave_message_drops_entry Scenario.joined Scenario.admin
              Scenario.alice Scenario.fine
              {| message_id := 100; message_channel := 10 |} (Some 0%nat)
              eq_refl eq_refl) as (Hgone & Hlog & _).
  split; [exact Hgone | exact Hlog].
Defined.

(** ** Templates that are not rendered, and what rendered text looks like *)

Lemma string_app_nil_r (s : string) : s +:+ "" = s.
Proof.
  induction s as [|c s IH]; [done|].
  change (String c s +:+ "") with (String c (s +:+ "")). by rewrite IH.
Qed.

Lemma string_app_assoc (s t u : string) : (s +:+ t) +:+ u = s +:+ (t +:+ u).
Proof.
  induction s as [|c s IH]; [done|].
  change (String c ((s +:+ t) +:+ u) = String c (s +:+ (t +:+ u))). by rewrite IH.
Qed.

Section Fields.

Variable member : Member.

Lemma format_go_brace_free (pre s : string) :
  brace_free pre = true →
  PyStr.format_go (data member) (pre +:+ s) None
  = PyStr.emit_string pre (PyStr.format_go (data member) s None).
Proof.
  induction pre as [|c pre IH]; intros Hfree.
  - change ("" +:+ s) with s. by destruct (PyStr.format_go (data member) s None).
  - cbn [brace_free] in Hfree.
    apply andb_true_iff in Hfree as [Hc Hfree].
    apply andb_true_iff in Hc as [Ho Hc].
    apply negb_true_iff, Ascii.eqb_neq in Ho, Hc.
    change (String c pre +:+ s) with (String c (pre +:+ s)).
    rewrite format_go_emit by done. rewrite IH by done.
    by destruct (PyStr.format_go (data member) s None).
Qed.

Lemma format_go_open (c : ascii) (r : string) :
  c ≠ "{"%char →
  PyStr.format_go (data member) (String "{" (String c r)) None
  = PyStr.format_go (data member) (String c r) (Some "").
Proof.
  intros Hc. destruct c as [[] [] [] [] [] [] [] []]; try reflexivity; congruence.
Qed.

Lemma format_go_name_char (c : ascii) (r acc : string) :
  plain_name (String c "") = true →
  PyStr.format_go (data member) (String c r) (Some acc)
  = PyStr.format_go (data member) r (Some (acc +:+ String c "")).
Proof.
  intros Hplain.
  destruct c as [[] [] [] [] [] [] [] []]; try reflexivity; discriminate Hplain.
Qed.

Lemma plain_name_cons (c : ascii) (name : string) :
  plain_name (String c name) = true →
  plain_name (String c "") = true ∧ plain_name name = true ∧ c ≠ "{"%char.
Proof.
  cbn [plain_name]. intros H.
  apply andb_true_iff in H as [H Hname].
  split; [by rewrite H|]. split; [done|].
  repeat (apply andb_true_iff in H as [H _]).
  by apply negb_true_iff, Ascii.eqb_neq in H.
Qed.

Lemma format_go_name (name acc rest : string) :
  plain_name name = true →
  PyStr.format_go (data member) (name +:+ String "}" rest) (Some acc)
  = match data member (acc +:+ name) with
    | Some v => PyStr.emit_string v (PyStr.format_go (data member) rest None)
    | None => PyStr.FormatRaises
    end.
Proof.
  revert acc. induction name as [|c name IH]; intros acc Hplain.
  - change ("" +:+ String "}" rest) with (String "}" rest).
    rewrite string_app_nil_r. reflexivity.
  - apply plain_name_cons in Hplain as (Hc & Hname & _).
    change (String c name +:+ String "}" rest)
      with (String c (name +:+ String "}" rest)).
    rewrite format_go_name_char by done. rewrite IH by done.
    rewrite string_app_assoc. reflexivity.
Qed.

Lemma format_raises_on_unknown_field (pre name rest : string) :
  brace_free pre = true →
  plain_name name = true →
  data member name = None →
  PyStr.format (data member) (pre +:+ String "{" (name +:+ String "}" rest))
  = PyStr.FormatRaises.
Proof.
  intros Hpre Hname Hdata. unfold PyStr.format.
  rewrite format_go_brace_free by done.
  assert (PyStr.format_go (data member) (String "{" (name +:+ String "}" rest)) None
          = PyStr.FormatRaises) as ->; [|done].
  destruct name as [|c name].
  - reflexivity.
  - pose proof (plain_name_cons _ _ Hname) as (_ & _ & Hc).
    change (String c name +:+ String "}" rest)
      with (String c (name +:+ String "}" rest)).
    rewrite format_go_open by done.
    change (String c (name +:+ String "}" rest))
      with (String c name +:+ String "}" rest).
    rewrite format_go_name by done.
    change ("" +:+ String c name) with (String c name). by rewrite Hdata.
Qed.

End Fields.

(** X14: a template in which, after text without braces, comes a
    replacement field whose name is none of [member], [server] and
    [mention] (and uses no conversion, specification, attribute or index)
    is not rendered, whatever follows the field: [str.format] raises,
    [send_formatted_message] logs the error, sends nothing, makes no task
    and returns no message, and the cog is as before. *)
Theorem unknown_field_sends_nothing (w : Welcome) (member : Member) (a : Answers)
    (pre name rest : string) channel title color view delete_after :
  brace_free pre = true →
  plain_name name = true →
  data member name = None →
  let message := pre +:+ String "{" (name +:+ String "}" rest) in
  render message member (format_other a) = None
  ∧ send_formatted_message w channel title message member color view delete_after a
    = (w, [log_error "Error sending formatted message: "], None, None).
Proof.
  intros Hpre Hname Hdata message.
  assert (render message member (format_other a) = None) as Hrender.
  { unfold render, message. by rewrite format_raises_on_unknown_field. }
  split; [done|]. apply send_formatted_message_failed. by left.
Qed.

Lemma unknown_field_sends_nothing_witness :
  render "Hi {name}, welcome" Scenario.alice None = None
  ∧ send_formatted_message Scenario.configured 10 None "Hi {name}, welcome"
      Scenario.alice green None (Some 30) Scenario.fine
    = (Scenario.configured, [log_error "Error sending formatted message: "], None, None).
Proof.
  apply (unknown_field_sends_nothing Scenario.configured Scenario.alice Scenario.fine
           "Hi " "name" ", welcome" 10 None green None (Some 30));
    reflexivity.
Defined.

Lemma unescape_head (s : string) (r : string) :
  unescape s = String "n" r → ∃ r', s = String "n" r'.
Proof.
  destruct s as [|c [|d s]]; cbn [unescape]; [done| |].
  - intros [= -> _]. by eexists.
  - destruct (Ascii.eqb c "\" && Ascii.eqb d "n").
    + intros Hnl. discriminate Hnl.
    + intros [= -> _]. by eexists.
Qed.

Lemma unescape_cons (c d : ascii) (s : string) :
  unescape (String c (String d s))
  = if Ascii.eqb c "\" && Ascii.eqb d "n"
    then String (Ascii.ascii_of_nat 10) (unescape s)
    else String c (unescape (String d s)).
Proof. reflexivity. Qed.

Lemma has_escape_cons (c : ascii) (u : string) :
  has_escape (String c u)
  = match u with
    | EmptyString => false
    | String e _ => (Ascii.eqb c "\" && Ascii.eqb e "n") || has_escape u
    end.
Proof. by destruct u. Qed.

Lemma has_escape_unescape (s : string) : has_escape (unescape s) = false.
Proof.
  enough (has_escape (unescape s) = false
          ∧ ∀ c, has_escape (unescape (String c s)) = false) as [H _] by exact H.
  induction s as [|d s [IH1 IH2]].
  - split; [reflexivity|]. intros c. reflexivity.
  - split; [apply IH2|]. intros c. rewrite unescape_cons.
    pose proof (IH2 d) as IHd.
    destruct (Ascii.eqb c "\" && Ascii.eqb d "n") eqn:Hpair;
      rewrite has_escape_cons.
    + destruct (unescape s) as [|e u]; [done|]. by rewrite IH1.
    + destruct (unescape (String d s)) as [|e u] eqn:Hu; [done|].
      rewrite IHd, orb_false_r.
      apply not_true_is_false. intros Hboth.
      apply andb_true_iff in Hboth as [Hc He].
      apply Ascii.eqb_eq in He. subst e.
      apply unescape_head in Hu as [r' [= -> _]].
      rewrite Hc in Hpair. discriminate Hpair.
Qed.

(** X15: the text [send_formatted_message] puts in the embed never holds
    a backslash followed by [n]: every such pair of the formatted text,
    from the template or from the member's names, has become a newline,
    and the replacement makes no new one. *)
Theorem rendered_text_has_no_escape (message : string) (member : Member)
    (other : option string) (text : string) :
  render message member other = Some text → has_escape text = false.
Proof.
  unfold render.
  destruct (PyStr.format (data member) message) as [t| |]; [|done|].
  - intros Htext.
    assert (text = unescape t) as ->
      by (rewrite <-replace_unescape; congruence).
    apply has_escape_unescape.
  - destruct other as [o|]; [|done]. intros Htext.
    assert (text = unescape o) as ->
      by (rewrite <-replace_unescape; exact (eq_sym (Some_inj _ _ Htext))).
    apply has_escape_unescape.
Qed.

Lemma rendered_text_has_no_escape_witness :
  has_escape "Hi {member}!\n\\n" = true
  ∧ has_escape ("Hi a" +:+ newline +:+ "b!" +:+ newline +:+ "\" +:+ newline) = false.
Proof.
  split; [reflexivity|].
  apply (rendered_text_has_no_escape "Hi {member}!\n\\n" Scenario.nina None).
  reflexivity.
Defined.

(** ** The registry in reachable states *)

(** X16: in every state the cog reaches from [__init__] through its
    listeners, the timer tasks, the commands and the button, each entry
    of the registry was made with the store ready and holds, next to its
    message, the handle of a task the loop has made, never [None]: the
    registry is empty until [init_db] has run, and the test [if task] of
    [on_member_remove] always finds a task. *)
Theorem registry_entries_hold_tasks (w : Welcome) (g m : Z) (msg : Message)
    (task : option nat) :
  reachable w →
  pending w g m = Some (msg, task) →
  db_ready w = true ∧ ∃ t, task = Some t ∧ (t < next_task (loop w))%nat.
Proof.
  intros Hw. revert g m msg task. change (entries_ok w).
  induction Hw as [d dc l|w op _ IH].
  - intros g m msg task Hentry. unfold pending in Hentry. simpl in Hentry.
    by rewrite lookup_empty in Hentry.
  - by apply entries_ok_run.
Qed.

Lemma registry_entries_hold_tasks_witness :
  db_ready Scenario.joined = true
  ∧ ∃ t, Some 0%nat = Some t ∧ (t < next_task (loop Scenario.joined))%nat.
Proof.
  apply (registry_entries_hold_tasks Scenario.joined 1 2
           {| message_id := 100; message_channel := 10 |}); [|reflexivity].
  change (reachable
            (foldl run
               (Welcome_init
                  {| welcome_config := ∅; welcome_join_messages := [];
                     welcome_leave_messages := []; welcome_greet_counts := ∅;
                     join_sequence := 0; leave_sequence := 0 |}
                  {| channel_messages := ∅; next_message_id := 100; delete_log := [] |}
                  {| tasks := ∅; next_task := 0 |})
               [op_init_db;
                op_set_join_config Scenario.admin (Some 10) None None (Some 30);
                op_set_leave_config Scenario.admin (Some 10) None None None;
                op_add_join_message Scenario.admin "Hi {member}!";
                op_add_leave_message Scenario.admin "Bye {member}";
                op_member_join Scenario.alice Scenario.fine])).
  apply reachable_foldl, reachable_init.
Defined.

(** ** Settings read back, and what a join leaves alone *)

(** X17: with the store ready, [settings] of the join group called
    without arguments right after a call that gave all four shows what
    was given: the channel as a mention (or [None] for the id 0), the
    title, [enable] as the stored 1 or 0, and the duration; and it changes
    nothing. *)
Theorem set_join_config_then_view (w : Welcome) (ctx : Interaction)
    (c : Z) (t : string) (b : bool) (d : Z) :
  db_ready w = true →
  let w' := (set_join_config w ctx (Some c) (Some t) (Some b) (Some d)).1 in
  set_join_config w' ctx None None None None
  = (w',
     [log_client
        ("Current join config: Channel: " +:+
         (if c =? 0 then "None" else "<#" +:+ pretty c +:+ ">") +:+
         ", Title: " +:+ t +:+
         ", Enabled: " +:+ (if b then "1" else "0") +:+
         ", Duration: " +:+ pretty d +:+ "s")]).
Proof.
  intros Hready w'.
  destruct (set_join_config_row w ctx (Some c) (Some t) (Some b) (Some d) Hready)
    as (Hready' & _ & Hrow); [by intros (? & _)|].
  fold w' in Hready', Hrow.
  unfold set_join_config at 1. unfold db_ready_only. rewrite Hready', Hrow.
  cbn [set_join_columns or_old fmap option_fmap option_map join_channel_id
       join_title join_enabled join_duration str_text str_Z stored].
  by destruct b.
Qed.

Lemma set_join_config_then_view_witness :
  (set_join_config
     (set_join_config Scenario.started Scenario.admin
        (Some 10) (Some "Hello") (Some false) (Some 30)).1
     Scenario.admin None None None None).2
  = [log_client
       "Current join config: Channel: <#10>, Title: Hello, Enabled: 0, Duration: 30s"].
Proof.
  rewrite (set_join_config_then_view Scenario.started Scenario.admin
             10 "Hello" false 30 eq_refl).
  reflexivity.
Defined.

(** X18: whatever the store holds and the outside answers,
    [on_member_join] makes no delete call, writes nothing to the store,
    leaves every message already in a channel and every task the loop
    has made as they are, and touches no registry entry other than that
    of the joining member in the member's guild. *)
Theorem on_member_join_only_adds (w : Welcome) (member : Member) (a : Answers) :
  let w' := (on_member_join w member a).1 in
  db w' = db w
  ∧ db_ready w' = db_ready w
  ∧ delete_log (discord w') = delete_log (discord w)
  ∧ (∀ id, id ≠ next_message_id (discord w) →
       channel_messages (discord w') !! id = channel_messages (discord w) !! id)
  ∧ (∀ t, (t < next_task (loop w))%nat → tasks (loop w') !! t = tasks (loop w) !! t)
  ∧ (∀ g m, (g, m) ≠ (guild_id (guild member), member_id member) →
       pending w' g m = pending w g m).
Proof.
  intros w'. subst w'.
  destruct (db_ready w) eqn:Hready; cycle 1.
  { unfold on_member_join. rewrite Hready. done. }
  destruct (load_join (db w) member) as [out|channel title messages d] eqn:Hload.
  { unfold on_member_join. rewrite Hready, Hload. done. }
  rewrite (on_member_join_ready _ _ _ _ _ _ _ Hready Hload). cbn [fst].
  set (s := send_formatted_message w channel title (choice messages (pick a))
              member green (Some (WelcomeButton_init member)) (Some d) a).
  destruct (send_formatted_message_frame w member a channel title
              (choice messages (pick a)) green (Some (WelcomeButton_init member))
              (Some d)) as (Hdb & Hr & Hregistry & Hlog).
  fold s in Hdb, Hr, Hregistry, Hlog.
  destruct (track_frame s.1.1.1 member s.1.2 s.2 d) as (Hdb' & Hr' & Hdiscord & Hloop).
  rewrite Hdb', Hr', Hdiscord, Hloop, Hdb, Hr, Hlog, Hready.
  split; [done|]. split; [done|]. split; [done|]. split; [|split].
  - intros id Hid. subst s. unfold send_formatted_message, create_task.
    repeat case_match; simplify_eq/=; try done; by apply lookup_insert_ne.
  - intros t Ht. by apply send_formatted_message_tasks.
  - intros g m Hne. unfold track.
    destruct (s.1.2) as [msg|]; [|by unfold pending; rewrite Hregistry].
    destruct (Z.ltb_spec 0 d); [|by unfold pending; rewrite Hregistry].
    pose proof (pending_track s.1.1.1 member msg s.2 d g m) as Hp.
    unfold track in Hp. destruct (Z.ltb_spec 0 d); [|lia].
    rewrite Hp by done. rewrite decide_False by congruence.
    unfold pending. by rewrite Hregistry.
Qed.
